(** * gowfs: the WebHDFS request/response pipeline

    A shallow embedding of [configuration.go] and [fs.go].  The repository
    carries two revisions of each file:

    - the status-checking revision ([UseHTTPS], [TLSClientSkipSecurity],
      [requestHdfsData] rejects every status other than 200), embedded in
      [Module StatusCheck];
    - the Knox revision ([EnableHTTPS], [EnableKnoxAuth], the [auth]
      handshake at construction time), embedded in [Module Knox].

    [buildRequestUrl], [makeHdfsData] and [responseToHdfsData] have the same
    text in both revisions and are embedded once.

    Go values are modelled as the code has them: a [(T, error)] result is a
    pair whose second component is an [option error] ([None] is [nil]), a
    pointer parameter is an [option], a [*Configuration] receiver is a
    location of a store, a run-time panic is an outcome of its own. *)

From Stdlib Require Import ZArith String Ascii.
From stdpp Require Import base gmap strings list pretty sorting.

Local Open Scope string_scope.
Local Open Scope Z_scope.

(** ** Data of the standard packages the code handles *)

(** [url.URL], the fields the code reads or writes. *)
Record URL := mkURL {
  Scheme : string;
  Host : string;
  Path : string;
  RawPath : string;
  RawQuery : string;
  Fragment : string
}.

Definition set_Path (u : URL) (p : string) : URL :=
  {| Scheme := Scheme u; Host := Host u; Path := p; RawPath := RawPath u;
     RawQuery := RawQuery u; Fragment := Fragment u |}.

Definition set_RawQuery (u : URL) (q : string) : URL :=
  {| Scheme := Scheme u; Host := Host u; Path := Path u; RawPath := RawPath u;
     RawQuery := q; Fragment := Fragment u |}.

(** [url.Values] is [map[string][]string]. *)
Abbreviation Values := (gmap string (list string)).

(** [Values.Add]: [v[key] = append(v[key], value)]. *)
Definition Values_Add (key value : string) (v : Values) : Values :=
  <[key := (default [] (v !! key) ++ [value])%list]> v.

(** [user.User] of [os/user]. *)
Record OsUser := { Username : string }.

(** [http.Cookie]. *)
Record Cookie := { cookieName : string; cookieValue : string }.

(** [http.Request]: method, target and the credentials [SetBasicAuth] puts
    in the Authorization header. *)
Record Request := mkRequest {
  Method : string;
  reqURL : URL;
  BasicAuth : option (string * string)
}.

Definition SetBasicAuth (r : Request) (username password : string) : Request :=
  {| Method := Method r; reqURL := reqURL r;
     BasicAuth := Some (username, password) |}.

(** A Go byte slice: [nil], or a sequence of bytes. *)
Inductive bytes :=
| NilSlice
| Slice (l : list Byte.byte).

Definition len (b : bytes) : nat :=
  match b with NilSlice => 0%nat | Slice l => length l end.

Definition is_nil_slice (b : bytes) : bool :=
  match b with NilSlice => true | Slice _ => false end.

Definition contents (b : bytes) : list Byte.byte :=
  match b with NilSlice => [] | Slice l => l end.

(** [http.Response]: [Body] is what [ioutil.ReadAll(rsp.Body)] returns, the
    bytes read and the read error if any. *)
Record Response := mkResponse {
  StatusCode : Z;
  Status : string;
  Body : bytes * option string
}.

Definition StatusOK : Z := 200.

(** ** The envelope *)

(** Modelled from the spec: the declaration of [RemoteException] is not in
    the two source files; the spec gives its three attributes (exception
    class, message, Java class name). *)
Record RemoteException := mkRemoteException {
  Exception : string;
  JavaClassName : string;
  Message : string
}.

(** Modelled from the spec: the declaration of [HdfsJsonData] is not in the
    two source files.  The spec describes it as the operation-specific
    success fields, kept abstract here as [P], next to the remote-exception
    field that [makeHdfsData] reads. *)
Record HdfsJsonData (P : Type) := mkHdfsJsonData {
  payload : P;
  RemoteException_ : RemoteException
}.
Arguments mkHdfsJsonData {P} _ _.
Arguments payload {P} _.
Arguments RemoteException_ {P} _.

(** Modelled from the spec: [Path] is declared outside the two source files;
    [buildRequestUrl] reads its [Name] only. *)
Record Path_ := mkPath { Name : string }.

(** ** Errors *)

(** The error values the code creates or passes on, by their origin. *)
Inductive error :=
| ErrorsNew (msg : string)            (* errors.New(msg) *)
| UrlError (msg : string)             (* returned by url.Parse *)
| TransportError (msg : string)       (* returned by client.Do *)
| ReadError (msg : string)            (* returned by ioutil.ReadAll *)
| JsonError (msg : string)            (* returned by json.Unmarshal *)
| RemoteError (re : RemoteException)  (* a RemoteException used as error *)
| BadStatus (code : Z) (status : string)
    (* fmt.Errorf("%w : (%d) %s", errBadStatusCode, code, status) *)
| Errorf (msg : string).              (* fmt.Errorf without %w *)

Definition errBadStatusCode : error := ErrorsNew "bad status code".

(** Modelled from the spec: the [Error] method of [RemoteException] is
    declared outside the two source files; the spec has the remote-service
    error carry the remote message verbatim. *)
Definition RemoteException_Error (re : RemoteException) : string := Message re.

(** The [Error()] text of an error. *)
Definition Error_msg (e : error) : string :=
  match e with
  | ErrorsNew m | UrlError m | TransportError m | ReadError m
  | JsonError m | Errorf m => m
  | RemoteError re => RemoteException_Error re
  | BadStatus code status =>
      "bad status code" +:+ " : (" +:+ pretty code +:+ ") " +:+ status
  end.

(** [errors.Unwrap]: the error wrapped with [%w]. *)
Definition Unwrap (e : error) : option error :=
  match e with
  | BadStatus _ _ => Some errBadStatusCode
  | _ => None
  end.

(** The taxonomy of section 7 of the specification. *)
Inductive error_kind :=
| ConfigurationKind | TransportKind | ProtocolKind | DecodeKind
| RemoteServiceKind | OtherKind.

Definition kind_of (e : error) : error_kind :=
  match e with
  | ErrorsNew m =>
      if decide (m = "Configuration namenode address not set.")
      then ConfigurationKind else OtherKind
  | TransportError _ => TransportKind
  | BadStatus _ _ => ProtocolKind
  | JsonError _ => DecodeKind
  | RemoteError _ => RemoteServiceKind
  | _ => OtherKind
  end.

(** ** The platform: standard packages and the outside world

    The functions of Go's standard packages that the code calls, and the
    two things it asks its environment (the current OS user, the answer of
    the remote service), are taken as an interface.  Results follow the
    packages' contracts: a call yields a value or an error, never both. *)
Class Platform := {
  (** the operation-specific success fields of [HdfsJsonData] and their
      zero value *)
  Payload : Type;
  zero_payload : Payload;
  (** the state of a [cookiejar.Jar] *)
  Jar : Type;
  (** [user.Current()]: [None] is the [(nil, err)] result *)
  user_Current : option OsUser;
  (** [url.Parse] *)
  url_Parse : string → URL + string;
  (** [url.ParseQuery] as [URL.Query] uses it: the error is dropped *)
  url_ParseQuery : string → Values;
  (** [Values.Encode] *)
  Values_Encode : Values → string;
  (** [URL.String] *)
  URL_String : URL → string;
  (** [http.NewRequest(method, url, nil)] *)
  http_NewRequest : string → string → Request + string;
  (** [Client.Do]: the answer to a request and the jar after it *)
  client_Do : Request → Jar → (Response + string) * Jar;
  (** [Jar.Cookies(u)] *)
  Jar_Cookies : Jar → URL → list Cookie;
  (** [cookiejar.New(nil)] *)
  cookiejar_New : Jar + string;
  (** [httputil.DumpResponse(resp, true)], as text *)
  DumpResponse : Response → string;
  (** [json.Unmarshal(data, &v)]: the value [v] holds afterwards and the
      error if any *)
  json_Unmarshal :
    list Byte.byte → HdfsJsonData Payload →
    HdfsJsonData Payload * option string
}.

(** ** Outcomes and the state monad *)

Inductive res (W A : Type) :=
| Done (a : A) (w : W)
| Panicked (msg : string) (w : W).
Arguments Done {W A} _ _.
Arguments Panicked {W A} _ _.

Definition M (W A : Type) : Type := W → res W A.

Definition ret {W A} (a : A) : M W A := λ w, Done a w.

Definition bind {W A B} (m : M W A) (k : A → M W B) : M W B :=
  λ w, match m w with
       | Done a w' => k a w'
       | Panicked msg w' => Panicked msg w'
       end.

Definition panic {W A} (msg : string) : M W A := λ w, Panicked msg w.

Notation "'let!' x ':=' m 'in' k" := (bind m (λ x, k))
  (at level 10, x name, m at level 100, k at level 200).

Definition nil_dereference : string :=
  "invalid memory address or nil pointer dereference".
Definition index_out_of_range : string :=
  "index out of range [0] with length 0".

Definition final_world {W A} (r : res W A) : W :=
  match r with Done _ w => w | Panicked _ w => w end.

(** ** Store, pointers *)

Definition loc := positive.

(** The fields of [Configuration] whose address the code takes. *)
Inductive field := FAddr | FUser.

(** A pointer to a field: [nil], or a field of the struct at a location. *)
Inductive pointer :=
| NilPtr
| FieldPtr (l : loc) (f : field).

(** [&conf.f] for the struct at [l]. *)
Definition addr_of_field (l : loc) (f : field) : pointer := FieldPtr l f.

Definition is_nil (p : pointer) : bool :=
  match p with NilPtr => true | FieldPtr _ _ => false end.

Section Pipeline.
Context `{Platform}.
(** The [Configuration] struct of the revision at hand. *)
Context {Conf : Type}.

(** The world: the [Configuration] values in memory, the cookie jar of
    the client, the requests sent so far, and the refresh tasks started
    with [go]. *)
Record World := mkWorld {
  heap : gmap loc Conf;
  jar : Jar;
  netlog : list Request;
  refreshers : nat
}.

Definition set_heap (w : World) (h : gmap loc Conf) : World :=
  {| heap := h; jar := jar w; netlog := netlog w;
     refreshers := refreshers w |}.

(** A local variable holding a copy of [c]. *)
Definition alloc (c : Conf) : M World loc :=
  λ w, let l := fresh (dom (heap w)) in Done l (set_heap w (<[l := c]> (heap w))).

Definition load (l : loc) : M World Conf :=
  λ w, match heap w !! l with
       | Some c => Done c w
       | None => Panicked nil_dereference w
       end.

Definition store (l : loc) (c : Conf) : M World unit :=
  λ w, match heap w !! l with
       | Some _ => Done tt (set_heap w (<[l := c]> (heap w)))
       | None => Panicked nil_dereference w
       end.

(** [client.Do(req)]: the request goes out, the jar takes the cookies of
    the answer. *)
Definition Do (req : Request) : M World (Response + string) :=
  λ w, let '(r, j) := client_Do req (jar w) in
       Done r {| heap := heap w; jar := j;
                 netlog := (netlog w ++ [req])%list;
                 refreshers := refreshers w |}.

(** [HdfsJsonData{}] *)
Definition zero_HdfsJsonData : HdfsJsonData Payload :=
  mkHdfsJsonData zero_payload (mkRemoteException "" "" "").

(** [u.Query()] *)
Definition Query (u : URL) : Values := url_ParseQuery (RawQuery u).

(** *** [buildRequestUrl] (fs.go, both revisions) *)

(** [conf.GetNameNodeUrl()] of the revision at hand, called on the address
    of a [Configuration]. *)
Variable GetNameNodeUrl : loc → M World (option URL * option error).

Definition buildRequestUrl (conf : Conf) (p : option Path_)
    (params : option (gmap string string)) :
    M World (option URL * option error) :=
  (* [conf] is a parameter passed by value: a copy local to the call *)
  let! conf := alloc conf in
  let! r := GetNameNodeUrl conf in
  let '(u, err) := r in
  match err with
  | Some e => ret (None, Some e)
  | None =>
      match u with
      | None => panic nil_dereference
      | Some u =>
          let! u :=
            match p with
            | None => ret u
            | Some p =>
                match Name p with
                | EmptyString => panic index_out_of_range
                | String c _ =>
                    if Ascii.eqb c "/"
                    then ret (set_Path u (Path u +:+ Name p))
                    else ret (set_Path u (Path u +:+ "/" +:+ Name p))
                end
            end in
          let q := Query u in
          (* [for key, val := range *params]: Go leaves the order of the
             visit open; the keys of a map differ, so every order builds
             the same [q] (see [range_order_irrelevant]) *)
          let q :=
            match params with
            | None => q
            | Some params => map_fold Values_Add q params
            end in
          ret (Some (set_RawQuery u (Values_Encode q)), None)
      end
  end.

(** *** [makeHdfsData], [responseToHdfsData] (fs.go, both revisions) *)

Definition makeHdfsData (data : bytes) :
    M World (HdfsJsonData Payload * option error) :=
  if (len data =? 0)%nat || is_nil_slice data then
    ret (zero_HdfsJsonData, None)
  else
    let jsonData := zero_HdfsJsonData in
    let '(jsonData, jsonErr) := json_Unmarshal (contents data) jsonData in
    match jsonErr with
    | Some e => ret (zero_HdfsJsonData, Some (JsonError e))
    | None =>
        if negb (String.eqb (Exception (RemoteException_ jsonData)) "")
        then ret (zero_HdfsJsonData,
                  Some (RemoteError (RemoteException_ jsonData)))
        else ret (jsonData, None)
    end.

Definition responseToHdfsData (rsp : Response) :
    M World (HdfsJsonData Payload * option error) :=
  let '(body, err) := Body rsp in
  match err with
  | Some e => ret (zero_HdfsJsonData, Some (ReadError e))
  | None => makeHdfsData body
  end.

End Pipeline.

Arguments World {_} Conf.

Definition WebHdfsVer : string := "/webhdfs/v1".

Definition OP_LISTSTATUS : string := "LISTSTATUS".

(** * The status-checking revision *)
Module StatusCheck.

(** [Configuration] (configuration.go, first revision).  Durations are
    nanosecond counts; [Retries] is the list the policy function returns,
    [None] for a nil function. *)
Record Configuration := mkConfiguration {
  Addr : string;
  BasePath : string;
  User : string;
  Password : string;
  ConnectionTimeout : Z;
  DisableKeepAlives : bool;
  DisableCompression : bool;
  ResponseHeaderTimeout : Z;
  MaxIdleConnsPerHost : Z;
  UseBaseAuth : bool;
  UseHTTPS : bool;
  TLSClientSkipSecurity : bool;
  Retries : option (list Z)
}.

(** [conf.User = name] *)
Definition set_User (c : Configuration) (name : string) : Configuration :=
  {| Addr := Addr c; BasePath := BasePath c; User := name;
     Password := Password c; ConnectionTimeout := ConnectionTimeout c;
     DisableKeepAlives := DisableKeepAlives c;
     DisableCompression := DisableCompression c;
     ResponseHeaderTimeout := ResponseHeaderTimeout c;
     MaxIdleConnsPerHost := MaxIdleConnsPerHost c;
     UseBaseAuth := UseBaseAuth c; UseHTTPS := UseHTTPS c;
     TLSClientSkipSecurity := TLSClientSkipSecurity c;
     Retries := Retries c |}.

(** [http.Transport] as [NewFileSystem] sets it up. *)
Record Transport := mkTransport {
  DialTimeout : Z;
  trMaxIdleConnsPerHost : Z;
  trResponseHeaderTimeout : Z;
  InsecureSkipVerify : bool
}.

(** [FileSystem]; the client's cookie jar is the [jar] of the world. *)
Record FileSystem := mkFileSystem {
  Config : Configuration;
  transport : Transport
}.

Section Code.
Context `{Platform}.

Abbreviation M' := (M (World Configuration)).

Definition GetNameNodeUrl (conf : loc) : M' (option URL * option error) :=
  if is_nil (addr_of_field conf FAddr) then
    ret (None, Some (ErrorsNew "Configuration namenode address not set."))
  else
    let! c := load conf in
    let protocol := "http" in
    let protocol := if UseHTTPS c then "https" else protocol in
    let urlStr :=
      protocol +:+ "://" +:+ Addr c +:+ WebHdfsVer +:+ BasePath c in
    let! _ :=
      if is_nil (addr_of_field conf FUser)
         || (String.length (User c) =? 0)%nat
      then
        match user_Current with
        | None => panic nil_dereference
        | Some u => store conf (set_User c (Username u))
        end
      else ret tt in
    let! c := load conf in
    let urlStr := urlStr +:+ "?user.name=" +:+ User c in
    match url_Parse urlStr with
    | inr err => ret (None, Some (UrlError err))
    | inl u => ret (Some u, None)
    end.

Definition buildRequestUrl :
    Configuration → option Path_ → option (gmap string string) →
    M' (option URL * option error) :=
  buildRequestUrl GetNameNodeUrl.

Definition NewFileSystem (conf : Configuration) :
    M' (option FileSystem * option error) :=
  let fs :=
    {| Config := conf;
       transport :=
         {| DialTimeout := ConnectionTimeout conf;
            trMaxIdleConnsPerHost := MaxIdleConnsPerHost conf;
            trResponseHeaderTimeout := ResponseHeaderTimeout conf;
            InsecureSkipVerify := TLSClientSkipSecurity conf |} |} in
  match cookiejar_New with
  | inl j =>
      λ w, Done (Some fs, None)
             {| heap := heap w; jar := j; netlog := netlog w;
                refreshers := refreshers w |}
  | inr err => panic err
  end.

(** The [client] argument is the client of the world: its jar is [jar]. *)
Definition requestHdfsData (req : Request) :
    M' (HdfsJsonData Payload * option error) :=
  let! r := Do req in
  match r with
  | inr err => ret (zero_HdfsJsonData, Some (TransportError err))
  | inl rsp =>
      if negb (StatusCode rsp =? StatusOK) then
        ret (zero_HdfsJsonData,
             Some (BadStatus (StatusCode rsp) (Status rsp)))
      else
        let! r := responseToHdfsData rsp in
        let '(hdfsData, err) := r in
        ret (hdfsData, err)
  end.

End Code.
End StatusCheck.

(** * The Knox revision *)
Module Knox.

(** [Configuration] (configuration.go, second revision). *)
Record Configuration := mkConfiguration {
  Addr : string;
  BasePath : string;
  User : string;
  Password : string;
  ConnectionTimeout : Z;
  DisableKeepAlives : bool;
  DisableCompression : bool;
  ResponseHeaderTimeout : Z;
  MaxIdleConnsPerHost : Z;
  EnableHTTPS : bool;
  EnableKnoxAuth : bool
}.

Definition set_User (c : Configuration) (name : string) : Configuration :=
  {| Addr := Addr c; BasePath := BasePath c; User := name;
     Password := Password c; ConnectionTimeout := ConnectionTimeout c;
     DisableKeepAlives := DisableKeepAlives c;
     DisableCompression := DisableCompression c;
     ResponseHeaderTimeout := ResponseHeaderTimeout c;
     MaxIdleConnsPerHost := MaxIdleConnsPerHost c;
     EnableHTTPS := EnableHTTPS c; EnableKnoxAuth := EnableKnoxAuth c |}.

Definition second : Z := 1000000000.

Definition NewConfiguration : Configuration :=
  {| Addr := ""; BasePath := ""; User := ""; Password := "";
     ConnectionTimeout := second * 17;
     DisableKeepAlives := false;
     DisableCompression := true;
     ResponseHeaderTimeout := second * 17;
     MaxIdleConnsPerHost := 0;
     EnableHTTPS := false; EnableKnoxAuth := false |}.

Record Transport := mkTransport {
  DialTimeout : Z;
  trMaxIdleConnsPerHost : Z;
  trResponseHeaderTimeout : Z
}.

Record FileSystem := mkFileSystem {
  Config : Configuration;
  transport : Transport
}.

Section Code.
Context `{Platform}.

Abbreviation M' := (M (World Configuration)).

Definition GetNameNodeUrl (conf : loc) : M' (option URL * option error) :=
  if is_nil (addr_of_field conf FAddr) then
    ret (None, Some (ErrorsNew "Configuration namenode address not set."))
  else
    let! c := load conf in
    let scheme := "http" in
    let scheme := if EnableHTTPS c then "https" else scheme in
    let urlStr :=
      scheme +:+ "://" +:+ Addr c +:+ WebHdfsVer +:+ BasePath c in
    let! _ :=
      if is_nil (addr_of_field conf FUser)
         || (String.length (User c) =? 0)%nat
      then
        match user_Current with
        | None => panic nil_dereference
        | Some u => store conf (set_User c (Username u))
        end
      else ret tt in
    let! c := load conf in
    let urlStr :=
      if negb (String.eqb (User c) "")
      then urlStr +:+ "?user.name=" +:+ User c
      else urlStr in
    match url_Parse urlStr with
    | inr err => ret (None, Some (UrlError err))
    | inl u => ret (Some u, None)
    end.

Definition buildRequestUrl :
    Configuration → option Path_ → option (gmap string string) →
    M' (option URL * option error) :=
  buildRequestUrl GetNameNodeUrl.

(** The [for ... range] over the jar's cookies, with its [break]. *)
Definition hasSessionCookie (cookies : list Cookie) : bool :=
  existsb (λ cookie, String.eqb (cookieName cookie) "JSESSIONID") cookies.

Definition auth (fs : FileSystem) : M' (option error) :=
  let! r := buildRequestUrl (Config fs) (Some (mkPath "/"))
              (Some {["op" := OP_LISTSTATUS]}) in
  let '(baseURL, err) := r in
  match err with
  | Some err => ret (Some (Errorf ("buildRequestUrl: " +:+ Error_msg err)))
  | None =>
  match baseURL with
  | None => panic nil_dereference
  | Some baseURL =>
  match http_NewRequest "GET" (URL_String baseURL) with
  | inr err =>
      ret (Some (Errorf ("http.NewRequest(" +:+ URL_String baseURL
                         +:+ "): " +:+ err)))
  | inl req =>
      let req := SetBasicAuth req (User (Config fs)) (Password (Config fs)) in
      let! r := Do req in
      match r with
      | inr err =>
          ret (Some (Errorf ("fs.client.Get(baseURL.String()): " +:+ err)))
      | inl resp =>
          if StatusCode resp >? 299 then
            let dump := DumpResponse resp in
            ret (Some (Errorf ("response of fs.client.Get("
                               +:+ URL_String (reqURL req) +:+ "): "
                               +:+ dump +:+ " ")))
          else
            λ w,
              if hasSessionCookie (Jar_Cookies (jar w) baseURL)
              then Done None w
              else Done (Some (Errorf "session cookie not found in jar")) w
      end
  end end end.

(** [go func() { for { time.Sleep(time.Minute); fs.auth() } }()]: the
    task is started, its iterations run after [NewFileSystem] returns. *)
Definition go_refresh : M' unit :=
  λ w, Done tt {| heap := heap w; jar := jar w; netlog := netlog w;
                  refreshers := S (refreshers w) |}.

Definition NewFileSystem (conf : Configuration) :
    M' (option FileSystem * option error) :=
  let fs :=
    {| Config := conf;
       transport :=
         {| DialTimeout := ConnectionTimeout conf;
            trMaxIdleConnsPerHost := MaxIdleConnsPerHost conf;
            trResponseHeaderTimeout := ResponseHeaderTimeout conf |} |} in
  match cookiejar_New with
  | inr err => ret (None, Some (Errorf ("cookiejar.New: " +:+ err)))
  | inl j =>
      let! _ := (λ w, Done tt {| heap := heap w; jar := j;
                                 netlog := netlog w;
                                 refreshers := refreshers w |}) in
      if EnableKnoxAuth conf then
        let! err := auth fs in
        match err with
        | Some err => ret (None, Some (Errorf ("fs.Auth: " +:+ Error_msg err)))
        | None =>
            let! _ := go_refresh in
            ret (Some fs, None)
        end
      else ret (Some fs, None)
  end.

(** The [client] argument is the client of the world: its jar is [jar]. *)
Definition requestHdfsData (req : Request) :
    M' (HdfsJsonData Payload * option error) :=
  let! r := Do req in
  match r with
  | inr err => ret (zero_HdfsJsonData, Some (TransportError err))
  | inl rsp =>
      let! r := responseToHdfsData rsp in
      let '(hdfsData, err) := r in
      ret (hdfsData, err)
  end.

End Code.
End Knox.

(** * A platform to run the code on

    A small instance of [Platform], used to evaluate the code on concrete
    inputs.  It covers what the examples need: URLs of the form
    [scheme://authority/path?query#fragment] without percent-escapes or
    user information, query strings, and JSON without [\u] escapes or
    exponents.  The remote service and the OS user are arguments. *)
Module Sample.

(** *** Text helpers *)

(** [strings.Cut] on a one-byte separator. *)
Fixpoint cut (sep : ascii) (s : string) : string * option string :=
  match s with
  | EmptyString => (EmptyString, None)
  | String c r =>
      if Ascii.eqb c sep then (EmptyString, Some r)
      else let '(a, b) := cut sep r in (String c a, b)
  end.

Fixpoint split_on (sep : ascii) (s : string) : list string :=
  match s with
  | EmptyString => [EmptyString]
  | String c r =>
      if Ascii.eqb c sep then EmptyString :: split_on sep r
      else match split_on sep r with
           | [] => [String c EmptyString]
           | x :: xs => String c x :: xs
           end
  end.

Fixpoint all_chars (f : ascii → bool) (s : string) : bool :=
  match s with
  | EmptyString => true
  | String c r => f c && all_chars f r
  end.

Definition code (c : ascii) : nat := nat_of_ascii c.

Definition is_digit (c : ascii) : bool :=
  (48 <=? code c)%nat && (code c <=? 57)%nat.
Definition is_upper (c : ascii) : bool :=
  (65 <=? code c)%nat && (code c <=? 90)%nat.
Definition is_lower (c : ascii) : bool :=
  (97 <=? code c)%nat && (code c <=? 122)%nat.
Definition is_ctl (c : ascii) : bool :=
  (code c <? 32)%nat || (code c =? 127)%nat.

Definition lower (c : ascii) : ascii :=
  if is_upper c then ascii_of_nat (code c + 32) else c.

Fixpoint lowercase (s : string) : string :=
  match s with
  | EmptyString => EmptyString
  | String c r => String (lower c) (lowercase r)
  end.

Definition dquote : ascii := ascii_of_nat 34.
Definition backslash : ascii := ascii_of_nat 92.

(** JSON text written with apostrophes in place of double quotes. *)
Fixpoint json_text (s : string) : string :=
  match s with
  | EmptyString => EmptyString
  | String c r =>
      String (if Ascii.eqb c "'" then dquote else c) (json_text r)
  end.

(** *** URLs *)

(** Everything up to the first ['/'], and the rest from that ['/'] on. *)
Fixpoint split_authority (s : string) : string * string :=
  match s with
  | EmptyString => (EmptyString, EmptyString)
  | String c r =>
      if Ascii.eqb c "/" then (EmptyString, s)
      else let '(a, p) := split_authority r in (String c a, p)
  end.

(** The port after the last [':'] of a host is made of digits. *)
Definition valid_optional_port (host : string) : bool :=
  match rev (split_on ":" host) with
  | [] | [_] => true
  | port :: _ => all_chars is_digit port
  end.

Definition valid_host_char (c : ascii) : bool :=
  is_digit c || is_upper c || is_lower c
  || existsb (Ascii.eqb c)
       ["-"; "."; "_"; "~"; ":"; "["; "]"; "!"; "$"; "&"; "("; ")"; "*";
        "+"; ","; ";"; "="]%char.

Definition parse_url (raw : string) : URL + string :=
  if negb (all_chars (λ c, negb (is_ctl c)) raw) then
    inr "net/url: invalid control character in URL"
  else
    let '(rest, frag) := cut "#" raw in
    match cut ":" rest with
    | (_, None) => inr "relative reference: outside the sample"
    | (EmptyString, Some _) => inr "missing protocol scheme"
    | (scheme, Some rest) =>
        let '(rest, query) := cut "?" rest in
        match rest with
        | String "/" (String "/" rest) =>
            let '(authority, path) := split_authority rest in
            if negb (all_chars valid_host_char authority) then
              inr "invalid character in host name"
            else if negb (valid_optional_port authority) then
              inr "invalid port after host"
            else
              inl {| Scheme := lowercase scheme; Host := authority;
                     Path := path; RawPath := "";
                     RawQuery := default "" query;
                     Fragment := default "" frag |}
        | _ =>
            inl {| Scheme := lowercase scheme; Host := ""; Path := rest;
                   RawPath := ""; RawQuery := default "" query;
                   Fragment := default "" frag |}
        end
    end.

Definition parse_query (query : string) : Values :=
  foldl (λ v pair,
           match pair with
           | EmptyString => v
           | _ => let '(key, value) := cut "=" pair in
                  Values_Add key (default "" value) v
           end)
        ∅ (split_on "&" query).

Definition hex_digit (n : nat) : ascii :=
  if (n <? 10)%nat then ascii_of_nat (48 + n) else ascii_of_nat (55 + n).

Definition unreserved (c : ascii) : bool :=
  is_digit c || is_upper c || is_lower c
  || existsb (Ascii.eqb c) ["-"; "_"; "."; "~"]%char.

(** [url.QueryEscape] *)
Fixpoint QueryEscape (s : string) : string :=
  match s with
  | EmptyString => EmptyString
  | String c r =>
      if unreserved c then String c (QueryEscape r)
      else if Ascii.eqb c " " then String "+" (QueryEscape r)
      else String "%" (String (hex_digit (code c / 16))
                         (String (hex_digit (code c mod 16))
                            (QueryEscape r)))
  end.

Definition join (sep : string) (l : list string) : string :=
  match l with
  | [] => ""
  | x :: xs => foldl (λ acc y, acc +:+ sep +:+ y) x xs
  end.

Definition encode_values (v : Values) : string :=
  let keys := merge_sort (λ a b, Is_true (String.leb a b)) (map fst (map_to_list v)) in
  join "&"
    (mbind (M := list)
       (λ k, map (λ x, QueryEscape k +:+ "=" +:+ QueryEscape x)
               (default [] (v !! k)))
       keys).

Definition url_string (u : URL) : string :=
  Scheme u +:+ "://" +:+ Host u +:+ Path u
  +:+ (if String.eqb (RawQuery u) "" then "" else "?" +:+ RawQuery u)
  +:+ (if String.eqb (Fragment u) "" then "" else "#" +:+ Fragment u).

Definition new_request (method target : string) : Request + string :=
  match parse_url target with
  | inl u => inl {| Method := method; reqURL := u; BasicAuth := None |}
  | inr err => inr err
  end.

(** *** JSON *)

#[local] Unset Elimination Schemes.
Inductive json :=
| JNull
| JBool (b : bool)
| JNumber (text : string)
| JString (s : string)
| JArray (items : list json)
| JObject (members : list (string * json)).
#[local] Set Elimination Schemes.

Definition is_space (c : ascii) : bool :=
  existsb (λ n, (code c =? n)%nat) [32; 9; 10; 13]%nat.

Fixpoint skip_ws (s : string) : string :=
  match s with
  | String c r => if is_space c then skip_ws r else s
  | EmptyString => s
  end.

(** The characters of a string literal after its opening quote, and the
    text after its closing quote. *)
Fixpoint scan_string (s : string) : option (string * string) :=
  match s with
  | EmptyString => None
  | String c r =>
      if Ascii.eqb c dquote then Some (EmptyString, r)
      else if is_ctl c then None
      else if Ascii.eqb c backslash then
        match r with
        | String e r' =>
            let unescaped :=
              if Ascii.eqb e dquote then Some dquote
              else if Ascii.eqb e backslash then Some backslash
              else if Ascii.eqb e "/" then Some "/"%char
              else if Ascii.eqb e "n" then Some (ascii_of_nat 10)
              else if Ascii.eqb e "t" then Some (ascii_of_nat 9)
              else if Ascii.eqb e "r" then Some (ascii_of_nat 13)
              else None in
            match unescaped, scan_string r' with
            | Some x, Some (a, rest) => Some (String x a, rest)
            | _, _ => None
            end
        | EmptyString => None
        end
      else
        match scan_string r with
        | Some (a, rest) => Some (String c a, rest)
        | None => None
        end
  end.

Fixpoint span (f : ascii → bool) (s : string) : string * string :=
  match s with
  | String c r =>
      if f c then let '(a, b) := span f r in (String c a, b)
      else (EmptyString, s)
  | EmptyString => (EmptyString, EmptyString)
  end.

(** [-]?digits(.digits)? *)
Definition scan_number (s : string) : option (string * string) :=
  let '(sign, s) :=
    match s with
    | String "-" r => ("-", r)
    | _ => ("", s)
    end in
  let '(int, s) := span is_digit s in
  match int with
  | EmptyString => None
  | _ =>
      match s with
      | String "." r =>
          let '(frac, r') := span is_digit r in
          match frac with
          | EmptyString => None
          | _ => Some (sign +:+ int +:+ "." +:+ frac, r')
          end
      | _ => Some (sign +:+ int, s)
      end
  end.

Definition expect (c : ascii) (s : string) : option string :=
  match skip_ws s with
  | String d r => if Ascii.eqb c d then Some r else None
  | EmptyString => None
  end.

Fixpoint parse_value (fuel : nat) (s : string) : option (json * string) :=
  match fuel with
  | O => None
  | S fuel =>
      match skip_ws s with
      | EmptyString => None
      | String c r =>
          if Ascii.eqb c "{" then
            match expect "}" r with
            | Some rest => Some (JObject [], rest)
            | None =>
                match parse_members fuel r with
                | Some (ms, rest) => Some (JObject ms, rest)
                | None => None
                end
            end
          else if Ascii.eqb c "[" then
            match expect "]" r with
            | Some rest => Some (JArray [], rest)
            | None =>
                match parse_items fuel r with
                | Some (xs, rest) => Some (JArray xs, rest)
                | None => None
                end
            end
          else if Ascii.eqb c dquote then
            match scan_string r with
            | Some (x, rest) => Some (JString x, rest)
            | None => None
            end
          else if String.prefix "true" (String c r) then
            Some (JBool true, String.substring 4 (String.length r) (String c r))
          else if String.prefix "false" (String c r) then
            Some (JBool false, String.substring 5 (String.length r) (String c r))
          else if String.prefix "null" (String c r) then
            Some (JNull, String.substring 4 (String.length r) (String c r))
          else
            match scan_number (String c r) with
            | Some (n, rest) => Some (JNumber n, rest)
            | None => None
            end
      end
  end
with parse_members (fuel : nat) (s : string) :
    option (list (string * json) * string) :=
  match fuel with
  | O => None
  | S fuel =>
      match expect dquote s with
      | None => None
      | Some r =>
          match scan_string r with
          | None => None
          | Some (key, r) =>
              match expect ":" r with
              | None => None
              | Some r =>
                  match parse_value fuel r with
                  | None => None
                  | Some (v, r) =>
                      match expect "}" r with
                      | Some rest => Some ([(key, v)], rest)
                      | None =>
                          match expect "," r with
                          | None => None
                          | Some r =>
                              match parse_members fuel r with
                              | Some (ms, rest) => Some ((key, v) :: ms, rest)
                              | None => None
                              end
                          end
                      end
                  end
              end
          end
      end
  end
with parse_items (fuel : nat) (s : string) : option (list json * string) :=
  match fuel with
  | O => None
  | S fuel =>
      match parse_value fuel s with
      | None => None
      | Some (v, r) =>
          match expect "]" r with
          | Some rest => Some ([v], rest)
          | None =>
              match expect "," r with
              | None => None
              | Some r =>
                  match parse_items fuel r with
                  | Some (xs, rest) => Some (v :: xs, rest)
                  | None => None
                  end
              end
          end
      end
  end.

(** A whole document: one value, then white space only. *)
Definition parse_json (s : string) : option json :=
  match parse_value (S (String.length s)) s with
  | Some (v, rest) =>
      match skip_ws rest with
      | EmptyString => Some v
      | _ => None
      end
  | None => None
  end.

(** Field names match as [encoding/json] matches them, ignoring case. *)
Definition names (key field : string) : bool :=
  String.eqb (lowercase key) (lowercase field).

(** A string field: a JSON string sets it, [null] leaves it. *)
Definition string_field (v : json) (old : string) : option string :=
  match v with
  | JString s => Some s
  | JNull => Some old
  | _ => None
  end.

Definition decode_exception (ms : list (string * json))
    (re : RemoteException) : RemoteException * option string :=
  foldl (λ acc m,
           let '(re, err) := acc in
           let '(key, v) := m in
           let set (get : RemoteException → string)
                   (put : string → RemoteException) :=
             match string_field v (get re) with
             | Some s => (put s, err)
             | None =>
                 (re, Some (default "json: cannot unmarshal into Go struct field of type string" err))
             end in
           if names key "Exception" then
             set Exception (λ s, mkRemoteException s (JavaClassName re) (Message re))
           else if names key "JavaClassName" then
             set JavaClassName (λ s, mkRemoteException (Exception re) s (Message re))
           else if names key "Message" then
             set Message (λ s, mkRemoteException (Exception re) (JavaClassName re) s)
           else acc)
        (re, None) ms.

(** The success fields are kept as the members of the document. *)
Definition decode_envelope (ms : list (string * json))
    (v : HdfsJsonData (list (string * json))) :
    HdfsJsonData (list (string * json)) * option string :=
  foldl (λ acc m,
           let '(d, err) := acc in
           let '(key, x) := m in
           if names key "RemoteException" then
             match x with
             | JObject fs =>
                 let '(re, err') := decode_exception fs (RemoteException_ d) in
                 (mkHdfsJsonData (payload d) re,
                  match err with Some _ => err | None => err' end)
             | JNull => acc
             | _ =>
                 (d, Some (default "json: cannot unmarshal into Go struct field HdfsJsonData.RemoteException" err))
             end
           else (mkHdfsJsonData (payload d ++ [(key, x)])%list (RemoteException_ d), err))
        (v, None) ms.

Definition unmarshal (data : list Byte.byte)
    (v : HdfsJsonData (list (string * json))) :
    HdfsJsonData (list (string * json)) * option string :=
  match parse_json (string_of_list_byte data) with
  | None => (v, Some "invalid character or unexpected end of JSON input")
  | Some JNull => (v, None)
  | Some (JObject ms) => decode_envelope ms v
  | Some _ =>
      (v, Some "json: cannot unmarshal into Go value of type gowfs.HdfsJsonData")
  end.

(** *** The instance *)

(** The remote service: its answer to a request and the cookies it sets. *)
Definition server := Request → (Response + string) * list Cookie.

Definition platform (osuser : option OsUser) (remote : server) : Platform :=
  {| Payload := list (string * json);
     zero_payload := [];
     Jar := list Cookie;
     user_Current := osuser;
     url_Parse := parse_url;
     url_ParseQuery := parse_query;
     Values_Encode := encode_values;
     URL_String := url_string;
     http_NewRequest := new_request;
     client_Do := λ req j, let '(r, cs) := remote req in (r, (j ++ cs)%list);
     Jar_Cookies := λ j _, j;
     cookiejar_New := inl [];
     DumpResponse := Status;
     json_Unmarshal := unmarshal |}.

Definition body_of (s : string) : bytes * option string :=
  (Slice (list_byte_of_string s), None).

End Sample.

(** * Notions used in the statements *)

(** What a call yields, the world apart: the returned value or the panic. *)
Definition value {W A} (r : res W A) : A + string :=
  match r with
  | Done a _ => inl a
  | Panicked msg _ => inr msg
  end.

(** [name] without its leading ['/'], if it has one. *)
Definition trim_slash (name : string) : string :=
  match name with
  | String c r => if Ascii.eqb c "/" then r else name
  | EmptyString => EmptyString
  end.

(** The 2xx range of HTTP status codes. *)
Definition is_2xx (code : Z) : bool := (200 <=? code) && (code <=? 299).

(** The parameters merged into a query, as the loop of [buildRequestUrl]
    does it. *)
Definition merge_params (q : Values) (params : option (gmap string string)) :
    Values :=
  match params with
  | None => q
  | Some params => map_fold Values_Add q params
  end.

Section Notions.
Context `{Platform} {Conf : Type}.

(** [u, err := conf.GetNameNodeUrl()] on a by-value [conf]: the first
    statement of [buildRequestUrl]. *)
Definition GetNameNodeUrl_of_copy
    (GetNameNodeUrl : loc → M (World Conf) (option URL * option error))
    (conf : Conf) : M (World Conf) (option URL * option error) :=
  let! l := alloc conf in GetNameNodeUrl l.

(** Everything but the [Configuration] at [l] is the same in [w] and [w']. *)
Definition same_except (l : loc) (w w' : World Conf) : Prop :=
  jar w' = jar w ∧ netlog w' = netlog w ∧ refreshers w' = refreshers w
  ∧ ∀ l', l' ≠ l → heap w' !! l' = heap w !! l'.

(** What [buildRequestUrl] does after the base URL is there. *)
Definition finish (r : option URL * option error) (p : option Path_)
    (params : option (gmap string string)) :
    (option URL * option error) + string :=
  match r with
  | (_, Some e) => inl (None, Some e)
  | (None, None) => inr nil_dereference
  | (Some u, None) =>
      match p with
      | None =>
          inl (Some (set_RawQuery u
                       (Values_Encode (merge_params (Query u) params))),
               None)
      | Some p =>
          match Name p with
          | EmptyString => inr index_out_of_range
          | _ =>
              inl (Some (set_RawQuery
                           (set_Path u
                              (Path u +:+ "/" +:+ trim_slash (Name p)))
                           (Values_Encode (merge_params (Query u) params))),
                   None)
          end
      end
  end.
End Notions.

(** The text [GetNameNodeUrl] hands to [url.Parse], first revision. *)
Definition urlStr_StatusCheck (c : StatusCheck.Configuration) : string :=
  ((if StatusCheck.UseHTTPS c then "https" else "http") +:+ "://"
   +:+ StatusCheck.Addr c +:+ WebHdfsVer +:+ StatusCheck.BasePath c)
  +:+ "?user.name=" +:+ StatusCheck.User c.

(** The text [GetNameNodeUrl] hands to [url.Parse], second revision. *)
Definition urlStr_Knox (c : Knox.Configuration) : string :=
  let urlStr :=
    (if Knox.EnableHTTPS c then "https" else "http") +:+ "://"
    +:+ Knox.Addr c +:+ WebHdfsVer +:+ Knox.BasePath c in
  if negb (String.eqb (Knox.User c) "")
  then urlStr +:+ "?user.name=" +:+ Knox.User c
  else urlStr.

(** [url.Parse] and the (value, error) pair made of its result. *)
Definition parsed `{Platform} {W} (s : string) (w : W) :
    res W (option URL * option error) :=
  match url_Parse s with
  | inr err => Done (None, Some (UrlError err)) w
  | inl u => Done (Some u, None) w
  end.

(** The world after a request went out and the jar became [j]. *)
Definition sent `{Platform} {Conf} (req : Request) (j : Jar) (w : World Conf) :
    World Conf :=
  {| heap := heap w; jar := j; netlog := (netlog w ++ [req])%list;
     refreshers := refreshers w |}.

(** The world with the client's jar replaced by [j]. *)
Definition with_jar `{Platform} {Conf} (j : Jar) (w : World Conf) : World Conf :=
  {| heap := heap w; jar := j; netlog := netlog w;
     refreshers := refreshers w |}.

(** The steps of a dispatch that can fail, for the answer [client.Do] got,
    each with the error it raises.  [check_status] tells whether the
    revision checks the status code. *)
Inductive step_failure `{Platform} (check_status : bool) :
    Response + string → error → Prop :=
| transport_fails err :
    step_failure check_status (inr err) (TransportError err)
| status_fails rsp :
    check_status = true → StatusCode rsp ≠ StatusOK →
    step_failure check_status (inl rsp)
      (BadStatus (StatusCode rsp) (Status rsp))
| read_fails rsp b err :
    Body rsp = (b, Some err) →
    step_failure check_status (inl rsp) (ReadError err)
| parse_fails rsp b x err :
    Body rsp = (b, None) → len b ≠ 0%nat →
    json_Unmarshal (contents b) zero_HdfsJsonData = (x, Some err) →
    step_failure check_status (inl rsp) (JsonError err)
| remote_fails rsp b x :
    Body rsp = (b, None) → len b ≠ 0%nat →
    json_Unmarshal (contents b) zero_HdfsJsonData = (x, None) →
    Exception (RemoteException_ x) ≠ "" →
    step_failure check_status (inl rsp) (RemoteError (RemoteException_ x)).

(** [d] is what the body of the answer decodes to. *)
Definition decoded `{Platform} (ans : Response + string)
    (d : HdfsJsonData Payload) : Prop :=
  ∃ rsp b, ans = inl rsp ∧ Body rsp = (b, None)
    ∧ ((len b = 0%nat ∧ d = zero_HdfsJsonData)
       ∨ (len b ≠ 0%nat
          ∧ json_Unmarshal (contents b) zero_HdfsJsonData = (d, None))).

(** The [FileSystem] that [NewFileSystem] of the Knox revision sets up. *)
Definition Knox_fs (conf : Knox.Configuration) : Knox.FileSystem :=
  {| Knox.Config := conf;
     Knox.transport :=
       {| Knox.DialTimeout := Knox.ConnectionTimeout conf;
          Knox.trMaxIdleConnsPerHost := Knox.MaxIdleConnsPerHost conf;
          Knox.trResponseHeaderTimeout := Knox.ResponseHeaderTimeout conf |} |}.

(** The handshake of [fs] started in [w] gets as far as an answer: the
    request URL [baseURL] is built, the request is made and sent, the
    service answers [resp], and the world is [w'] afterwards. *)
Definition handshake_answer `{Platform} (fs : Knox.FileSystem)
    (w : World Knox.Configuration) (baseURL : URL) (resp : Response)
    (w' : World Knox.Configuration) : Prop :=
  ∃ w1 req j,
    Knox.buildRequestUrl (Knox.Config fs) (Some (mkPath "/"))
      (Some {["op" := OP_LISTSTATUS]}) w = Done (Some baseURL, None) w1
    ∧ http_NewRequest "GET" (URL_String baseURL) = inl req
    ∧ client_Do
        (SetBasicAuth req (Knox.User (Knox.Config fs))
           (Knox.Password (Knox.Config fs)))
        (jar w1) = (inl resp, j)
    ∧ w' = sent (SetBasicAuth req (Knox.User (Knox.Config fs))
                   (Knox.Password (Knox.Config fs))) j w1.

(** The session cookie is in the jar for [baseURL]. *)
Definition session_cookie `{Platform} (baseURL : URL)
    (w : World Knox.Configuration) : bool :=
  Knox.hasSessionCookie (Jar_Cookies (jar w) baseURL).

(** ** Two sentences of the specification, as they are written *)

(** Status-checking revision: an answer outside 2xx is a protocol error
    with the status code and text, an answer inside 2xx is not one. *)
Definition protocol_error_iff_not_2xx : Prop :=
  ∀ (P : Platform) (req : Request) (w : World StatusCheck.Configuration)
    (rsp : Response) (j : Jar),
    client_Do req (jar w) = (inl rsp, j) →
    (is_2xx (StatusCode rsp) = false →
     StatusCheck.requestHdfsData req w
     = Done (zero_HdfsJsonData,
             Some (BadStatus (StatusCode rsp) (Status rsp))) (sent req j w))
    ∧ (is_2xx (StatusCode rsp) = true →
       ∀ d e w', StatusCheck.requestHdfsData req w = Done (d, Some e) w' →
                 kind_of e ≠ ProtocolKind).

(** Knox revision: construction fails with the error of the handshake
    whenever the handshake fails; the handshake fails on every answer whose
    status is not a success, and on every answer whose status is a success
    when the jar has no session cookie. *)
Definition construction_fails_with_handshake : Prop :=
  ∀ (P : Platform),
    (∀ conf (w w' : World Knox.Configuration) j0 e,
       cookiejar_New = inl j0 →
       Knox.EnableKnoxAuth conf = true →
       Knox.auth (Knox_fs conf) (with_jar j0 w) = Done (Some e) w' →
       Knox.NewFileSystem conf w
       = Done (None, Some (Errorf ("fs.Auth: " +:+ Error_msg e))) w')
    ∧ (∀ fs (w w' : World Knox.Configuration) baseURL resp,
         handshake_answer fs w baseURL resp w' →
         is_2xx (StatusCode resp) = false →
         ∃ e, Knox.auth fs w = Done (Some e) w')
    ∧ (∀ fs (w w' : World Knox.Configuration) baseURL resp,
         handshake_answer fs w baseURL resp w' →
         is_2xx (StatusCode resp) = true →
         session_cookie baseURL w' = false →
         ∃ e, Knox.auth fs w = Done (Some e) w').

(** ** Concrete inputs *)

Module Inputs.

Definition hdfs : option OsUser := Some {| Username := "hdfs" |}.

(** A service that cannot be reached. *)
Definition unreachable : Sample.server :=
  λ _, (inr "dial tcp: connection refused", []).

(** A service that gives the same answer to every request. *)
Definition answering (code : Z) (status body : string)
    (cookies : list Cookie) : Sample.server :=
  λ _, (inl (mkResponse code status (Sample.body_of body)), cookies).

Definition offline : Platform := Sample.platform hdfs unreachable.

(** A world with one [Configuration] in memory, an empty jar, nothing
    sent. *)
Definition world {Conf} (P : Platform) (j : @Jar P) (c : Conf) :
    @World P Conf :=
  {| heap := {[1%positive := c]}; jar := j; netlog := []; refreshers := 0 |}.

(** The address is not set. *)
Definition no_address : StatusCheck.Configuration :=
  {| StatusCheck.Addr := ""; StatusCheck.BasePath := "";
     StatusCheck.User := "hdfs"; StatusCheck.Password := "";
     StatusCheck.ConnectionTimeout := 17000000000;
     StatusCheck.DisableKeepAlives := false;
     StatusCheck.DisableCompression := true;
     StatusCheck.ResponseHeaderTimeout := 17000000000;
     StatusCheck.MaxIdleConnsPerHost := 0;
     StatusCheck.UseBaseAuth := false; StatusCheck.UseHTTPS := false;
     StatusCheck.TLSClientSkipSecurity := false;
     StatusCheck.Retries := None |}.

Definition no_address_knox : Knox.Configuration :=
  Knox.set_User Knox.NewConfiguration "hdfs".

(** A namenode, no user given. *)
Definition namenode : StatusCheck.Configuration :=
  {| StatusCheck.Addr := "nn.example:50070"; StatusCheck.BasePath := "/data";
     StatusCheck.User := ""; StatusCheck.Password := "";
     StatusCheck.ConnectionTimeout := 17000000000;
     StatusCheck.DisableKeepAlives := false;
     StatusCheck.DisableCompression := true;
     StatusCheck.ResponseHeaderTimeout := 17000000000;
     StatusCheck.MaxIdleConnsPerHost := 0;
     StatusCheck.UseBaseAuth := false; StatusCheck.UseHTTPS := false;
     StatusCheck.TLSClientSkipSecurity := false;
     StatusCheck.Retries := None |}.

(** A Knox gateway with credentials. *)
Definition gateway : Knox.Configuration :=
  {| Knox.Addr := "knox.example:8443"; Knox.BasePath := "";
     Knox.User := "alice"; Knox.Password := "secret";
     Knox.ConnectionTimeout := 17000000000;
     Knox.DisableKeepAlives := false;
     Knox.DisableCompression := true;
     Knox.ResponseHeaderTimeout := 17000000000;
     Knox.MaxIdleConnsPerHost := 0;
     Knox.EnableHTTPS := true; Knox.EnableKnoxAuth := true |}.

(** The base URLs of [namenode] (for the OS user [hdfs]) and of
    [gateway]. *)
Definition namenode_base : URL :=
  {| Scheme := "http"; Host := "nn.example:50070";
     Path := "/webhdfs/v1/data"; RawPath := "";
     RawQuery := "user.name=hdfs"; Fragment := "" |}.

Definition gateway_base : URL :=
  {| Scheme := "https"; Host := "knox.example:8443";
     Path := "/webhdfs/v1"; RawPath := "";
     RawQuery := "user.name=alice"; Fragment := "" |}.

Definition session : Cookie :=
  {| cookieName := "JSESSIONID"; cookieValue := "1f2e3d" |}.

(** The URL of the handshake for [gateway], and the request sent. *)
Definition gateway_handshake : URL :=
  {| Scheme := "https"; Host := "knox.example:8443";
     Path := "/webhdfs/v1/"; RawPath := "";
     RawQuery := "op=LISTSTATUS&user.name=alice"; Fragment := "" |}.

Definition gateway_request : Request :=
  {| Method := "GET"; reqURL := gateway_handshake;
     BasicAuth := Some ("alice", "secret") |}.

Definition get (u : URL) : Request :=
  {| Method := "GET"; reqURL := u; BasicAuth := None |}.

Definition some_url : URL :=
  {| Scheme := "http"; Host := "nn.example:50070";
     Path := "/webhdfs/v1/data/f"; RawPath := "";
     RawQuery := "op=GETFILESTATUS&user.name=hdfs"; Fragment := "" |}.

Definition file_not_found : string :=
  Sample.json_text
    "{'RemoteException':{'exception':'FileNotFoundException','message':'m','javaClassName':'c'}}".

Definition truncated : string := Sample.json_text "{'Remote".

End Inputs.

(** ** More inputs *)

Module MoreInputs.

(** A platform on which the OS user cannot be found. *)
Definition anonymous : Platform := Sample.platform None Inputs.unreachable.

(** A platform whose OS user has an empty name. *)
Definition nameless : Platform :=
  Sample.platform (Some {| Username := "" |}) Inputs.unreachable.

(** A gateway whose address has a port that is no number. *)
Definition bad_port : Knox.Configuration :=
  {| Knox.Addr := "knox.example:https"; Knox.BasePath := "";
     Knox.User := "alice"; Knox.Password := "secret";
     Knox.ConnectionTimeout := 17000000000;
     Knox.DisableKeepAlives := false;
     Knox.DisableCompression := true;
     Knox.ResponseHeaderTimeout := 17000000000;
     Knox.MaxIdleConnsPerHost := 0;
     Knox.EnableHTTPS := true; Knox.EnableKnoxAuth := true |}.

(** [Inputs.gateway] with another password and other timeouts. *)
Definition gateway' : Knox.Configuration :=
  {| Knox.Addr := "knox.example:8443"; Knox.BasePath := "";
     Knox.User := "alice"; Knox.Password := "hunter2";
     Knox.ConnectionTimeout := 1000000000;
     Knox.DisableKeepAlives := true;
     Knox.DisableCompression := false;
     Knox.ResponseHeaderTimeout := 2000000000;
     Knox.MaxIdleConnsPerHost := 4;
     Knox.EnableHTTPS := true; Knox.EnableKnoxAuth := false |}.

(** A Knox configuration that names no user. *)
Definition no_user : Knox.Configuration :=
  {| Knox.Addr := "nn.example:50070"; Knox.BasePath := "/data";
     Knox.User := ""; Knox.Password := "";
     Knox.ConnectionTimeout := 17000000000;
     Knox.DisableKeepAlives := false;
     Knox.DisableCompression := true;
     Knox.ResponseHeaderTimeout := 17000000000;
     Knox.MaxIdleConnsPerHost := 0;
     Knox.EnableHTTPS := false; Knox.EnableKnoxAuth := true |}.


End MoreInputs.

(** * Facts *)

(** ** The loop over [params] *)

Lemma Values_Add_comm k1 v1 k2 v2 (q : Values) :
  k1 ≠ k2 →
  Values_Add k1 v1 (Values_Add k2 v2 q) = Values_Add k2 v2 (Values_Add k1 v1 q).
Proof.
  intros Hne. unfold Values_Add.
  rewrite !lookup_insert_ne by done. by apply insert_insert_ne.
Qed.

Lemma foldl_rev_foldr {A B} (f : A → B → A) (a : A) (l : list B) :
  foldl f a l = foldr (λ x a, f a x) a (rev l).
Proof.
  induction l as [|x l IH] using rev_ind; [done|].
  by rewrite foldl_snoc, rev_unit, IH.
Qed.

(** In whatever order the loop visits the entries of the map, the query
    it builds is the one of the embedding. *)
Lemma range_order_irrelevant (q : Values) (params : gmap string string)
    (order : list (string * string)) :
  order ≡ₚ map_to_list params →
  foldl (λ q '(key, val), Values_Add key val q) q order
  = map_fold Values_Add q params.
Proof.
  intros Hperm. rewrite map_fold_foldr, foldl_rev_foldr.
  assert (rev order ≡ₚ map_to_list params) as Hrev
    by (by rewrite <- Hperm, <- Permutation_rev).
  assert (NoDup (rev order).*1) as Hnodup
    by (rewrite Hrev; apply NoDup_fst_map_to_list).
  assert (∀ l, foldr (λ kv a, let '(key, val) := kv in Values_Add key val a) q l
               = foldr (uncurry Values_Add) q l) as ->
    by (intros l; induction l as [|[key val] l IH]; [done|]; simpl;
        by rewrite IH).
  apply (foldr_permutation (=) (uncurry Values_Add) q (rev order)); [|done].
  intros j1 [k1 v1] j2 [k2 v2] b Hj H1 H2. apply Values_Add_comm.
  intros ->. apply Hj. eapply NoDup_lookup; [exact Hnodup| |].
  - by rewrite list_lookup_fmap, H1.
  - by rewrite list_lookup_fmap, H2.
Qed.

(** ** [buildRequestUrl] *)

Section PipelineFacts.
Context `{Platform} {Conf : Type}.
Variable G : loc → M (World Conf) (option URL * option error).

Lemma GetNameNodeUrl_of_copy_run conf w :
  GetNameNodeUrl_of_copy G conf w
  = G (fresh (dom (heap w)))
      (set_heap w (<[fresh (dom (heap w)) := conf]> (heap w))).
Proof.
  unfold GetNameNodeUrl_of_copy, bind, alloc. by destruct (G _ _).
Qed.

Lemma buildRequestUrl_run conf p params w :
  buildRequestUrl G conf p params w =
  match GetNameNodeUrl_of_copy G conf w with
  | Panicked msg w' => Panicked msg w'
  | Done r w' =>
      match finish r p params with
      | inl x => Done x w'
      | inr msg => Panicked msg w'
      end
  end.
Proof.
  unfold buildRequestUrl, GetNameNodeUrl_of_copy, bind, alloc.
  destruct (G _ _) as [[[u|] [e|]] w'|]; try reflexivity.
  destruct p as [[[|c r]]|]; try reflexivity.
  unfold finish, ret. cbn [Name trim_slash].
  destruct (Ascii.eqb_spec c "/") as [->|]; reflexivity.
Qed.

Lemma buildRequestUrl_final_world conf p params w :
  final_world (buildRequestUrl G conf p params w)
  = final_world (GetNameNodeUrl_of_copy G conf w).
Proof.
  rewrite buildRequestUrl_run.
  destruct (GetNameNodeUrl_of_copy G conf w) as [r w'|]; try reflexivity.
  destruct (finish r p params); reflexivity.
Qed.

Lemma buildRequestUrl_value conf p params w :
  value (buildRequestUrl G conf p params w)
  = match value (GetNameNodeUrl_of_copy G conf w) with
    | inl r => finish r p params
    | inr msg => inr msg
    end.
Proof.
  rewrite buildRequestUrl_run.
  destruct (GetNameNodeUrl_of_copy G conf w) as [r w'|]; try reflexivity.
  simpl. destruct (finish r p params); reflexivity.
Qed.

(** A [GetNameNodeUrl] that writes through its receiver only, and whose
    result depends on the [Configuration] it points to only. *)
Hypothesis G_frame : ∀ l w, same_except l w (final_world (G l w)).
Hypothesis G_local :
  ∀ l1 l2 w1 w2,
    heap w1 !! l1 = heap w2 !! l2 → value (G l1 w1) = value (G l2 w2).

Lemma buildRequestUrl_frame conf p params w :
  let w' := final_world (buildRequestUrl G conf p params w) in
  netlog w' = netlog w ∧ jar w' = jar w ∧ refreshers w' = refreshers w
  ∧ ∀ l c, heap w !! l = Some c → heap w' !! l = Some c.
Proof.
  cbv zeta. rewrite buildRequestUrl_final_world, GetNameNodeUrl_of_copy_run.
  set (l0 := fresh (dom (heap w))).
  set (w0 := set_heap w (<[l0:=conf]> (heap w))).
  destruct (G_frame l0 w0) as (Hj & Hn & Hr & Hh).
  split_and!; [by rewrite Hn | by rewrite Hj | by rewrite Hr |].
  intros l c Hl.
  assert (l ≠ l0) as Hne.
  { intros ->. pose proof (is_fresh (dom (heap w))) as Hf.
    apply Hf, elem_of_dom. by eexists. }
  rewrite Hh by done. subst w0; simpl. by rewrite lookup_insert_ne.
Qed.

Lemma buildRequestUrl_world_independent conf p params w1 w2 :
  value (buildRequestUrl G conf p params w1)
  = value (buildRequestUrl G conf p params w2).
Proof.
  rewrite !buildRequestUrl_value, !GetNameNodeUrl_of_copy_run.
  erewrite G_local; [reflexivity|].
  simpl. by rewrite !lookup_insert_eq.
Qed.

End PipelineFacts.

Lemma done_of_value {W A} (r : res W A) (a : A) :
  value r = inl a → r = Done a (final_world r).
Proof. destruct r; simpl; congruence. Qed.

(** ** [GetNameNodeUrl] *)

Section GetNameNodeUrlFacts.
Context `{Platform}.

Lemma GetNameNodeUrl_StatusCheck_run l w c :
  heap w !! l = Some c →
  StatusCheck.GetNameNodeUrl l w =
  if (String.length (StatusCheck.User c) =? 0)%nat then
    match user_Current with
    | None => Panicked nil_dereference w
    | Some u =>
        let c' := StatusCheck.set_User c (Username u) in
        parsed (urlStr_StatusCheck c') (set_heap w (<[l := c']> (heap w)))
    end
  else parsed (urlStr_StatusCheck c) w.
Proof.
  intros Hc. unfold urlStr_StatusCheck. cbv zeta.
  unfold StatusCheck.GetNameNodeUrl, parsed, bind, load, store, ret, panic.
  cbn [is_nil addr_of_field orb]. rewrite Hc.
  destruct (String.length (StatusCheck.User c) =? 0)%nat.
  - destruct user_Current as [u|]; [|reflexivity].
    rewrite Hc. cbn [heap set_heap]. rewrite lookup_insert_eq.
    cbn [StatusCheck.set_User StatusCheck.User StatusCheck.UseHTTPS
           StatusCheck.Addr StatusCheck.BasePath].
    destruct (StatusCheck.UseHTTPS c); destruct (url_Parse _); reflexivity.
  - rewrite Hc.
    destruct (StatusCheck.UseHTTPS c); destruct (url_Parse _); reflexivity.
Qed.

Lemma GetNameNodeUrl_Knox_run l w c :
  heap w !! l = Some c →
  Knox.GetNameNodeUrl l w =
  if (String.length (Knox.User c) =? 0)%nat then
    match user_Current with
    | None => Panicked nil_dereference w
    | Some u =>
        let c' := Knox.set_User c (Username u) in
        parsed (urlStr_Knox c') (set_heap w (<[l := c']> (heap w)))
    end
  else parsed (urlStr_Knox c) w.
Proof.
  intros Hc. unfold urlStr_Knox. cbv zeta.
  unfold Knox.GetNameNodeUrl, parsed, bind, load, store, ret, panic.
  cbn [is_nil addr_of_field orb]. rewrite Hc.
  destruct (String.length (Knox.User c) =? 0)%nat.
  - destruct user_Current as [u|]; [|reflexivity].
    rewrite Hc. cbn [heap set_heap]. rewrite lookup_insert_eq.
    cbn [Knox.set_User Knox.User Knox.EnableHTTPS Knox.Addr Knox.BasePath].
    destruct (Knox.EnableHTTPS c);
      destruct (negb (Username u =? "")%string);
      destruct (url_Parse _); reflexivity.
  - rewrite Hc.
    destruct (Knox.EnableHTTPS c);
      destruct (negb (Knox.User c =? "")%string);
      destruct (url_Parse _); reflexivity.
Qed.

Lemma GetNameNodeUrl_StatusCheck_dangling l w :
  heap w !! l = None →
  StatusCheck.GetNameNodeUrl l w = Panicked nil_dereference w.
Proof.
  intros Hc. unfold StatusCheck.GetNameNodeUrl, bind, load.
  cbn [is_nil addr_of_field]. by rewrite Hc.
Qed.

Lemma GetNameNodeUrl_Knox_dangling l w :
  heap w !! l = None →
  Knox.GetNameNodeUrl l w = Panicked nil_dereference w.
Proof.
  intros Hc. unfold Knox.GetNameNodeUrl, bind, load.
  cbn [is_nil addr_of_field]. by rewrite Hc.
Qed.

Lemma parsed_final_world {W} s (w : W) : final_world (parsed s w) = w.
Proof. unfold parsed. by destruct (url_Parse s). Qed.

Lemma parsed_value {W1 W2} s (w1 : W1) (w2 : W2) :
  value (parsed s w1) = value (parsed s w2).
Proof. unfold parsed. by destruct (url_Parse s). Qed.

Lemma same_except_refl {Conf} l (w : World Conf) : same_except l w w.
Proof. by repeat split. Qed.

Lemma same_except_store {Conf} l c (w : World Conf) :
  same_except l w (set_heap w (<[l := c]> (heap w))).
Proof.
  repeat split; try done. intros l' Hne. simpl. by rewrite lookup_insert_ne.
Qed.

Lemma GetNameNodeUrl_StatusCheck_frame l w :
  same_except l w (final_world (StatusCheck.GetNameNodeUrl l w)).
Proof.
  destruct (heap w !! l) as [c|] eqn:Hc.
  - rewrite (GetNameNodeUrl_StatusCheck_run l w c Hc).
    destruct (String.length (StatusCheck.User c) =? 0)%nat;
      [destruct user_Current|]; cbv zeta; rewrite ?parsed_final_world;
      auto using same_except_refl, same_except_store.
  - rewrite GetNameNodeUrl_StatusCheck_dangling by done.
    apply same_except_refl.
Qed.

Lemma GetNameNodeUrl_Knox_frame l w :
  same_except l w (final_world (Knox.GetNameNodeUrl l w)).
Proof.
  destruct (heap w !! l) as [c|] eqn:Hc.
  - rewrite (GetNameNodeUrl_Knox_run l w c Hc).
    destruct (String.length (Knox.User c) =? 0)%nat;
      [destruct user_Current|]; cbv zeta; rewrite ?parsed_final_world;
      auto using same_except_refl, same_except_store.
  - rewrite GetNameNodeUrl_Knox_dangling by done.
    apply same_except_refl.
Qed.

Lemma GetNameNodeUrl_StatusCheck_local l1 l2 w1 w2 :
  heap w1 !! l1 = heap w2 !! l2 →
  value (StatusCheck.GetNameNodeUrl l1 w1)
  = value (StatusCheck.GetNameNodeUrl l2 w2).
Proof.
  intros Heq. destruct (heap w2 !! l2) as [c|] eqn:Hc.
  - rewrite (GetNameNodeUrl_StatusCheck_run l1 w1 c Heq),
      (GetNameNodeUrl_StatusCheck_run l2 w2 c Hc).
    destruct (String.length (StatusCheck.User c) =? 0)%nat;
      [destruct user_Current|]; cbv zeta;
      auto using @parsed_value.
  - by rewrite !GetNameNodeUrl_StatusCheck_dangling.
Qed.

Lemma GetNameNodeUrl_Knox_local l1 l2 w1 w2 :
  heap w1 !! l1 = heap w2 !! l2 →
  value (Knox.GetNameNodeUrl l1 w1) = value (Knox.GetNameNodeUrl l2 w2).
Proof.
  intros Heq. destruct (heap w2 !! l2) as [c|] eqn:Hc.
  - rewrite (GetNameNodeUrl_Knox_run l1 w1 c Heq),
      (GetNameNodeUrl_Knox_run l2 w2 c Hc).
    destruct (String.length (Knox.User c) =? 0)%nat;
      [destruct user_Current|]; cbv zeta;
      auto using @parsed_value.
  - by rewrite !GetNameNodeUrl_Knox_dangling.
Qed.

(** The guard on [&conf.Addr] never fires: an error of [GetNameNodeUrl]
    is an error of [url.Parse]. *)
Lemma GetNameNodeUrl_StatusCheck_errors l w u e w' :
  StatusCheck.GetNameNodeUrl l w = Done (u, Some e) w' →
  ∃ msg, e = UrlError msg.
Proof.
  destruct (heap w !! l) as [c|] eqn:Hc.
  - rewrite (GetNameNodeUrl_StatusCheck_run l w c Hc). unfold parsed.
    destruct (String.length (StatusCheck.User c) =? 0)%nat;
      [destruct user_Current|]; cbv zeta;
      try destruct (url_Parse _); intros [=]; subst; eauto.
  - by rewrite GetNameNodeUrl_StatusCheck_dangling.
Qed.

Lemma GetNameNodeUrl_Knox_errors l w u e w' :
  Knox.GetNameNodeUrl l w = Done (u, Some e) w' →
  ∃ msg, e = UrlError msg.
Proof.
  destruct (heap w !! l) as [c|] eqn:Hc.
  - rewrite (GetNameNodeUrl_Knox_run l w c Hc). unfold parsed.
    destruct (String.length (Knox.User c) =? 0)%nat;
      [destruct user_Current|]; cbv zeta;
      try destruct (url_Parse _); intros [=]; subst; eauto.
  - by rewrite GetNameNodeUrl_Knox_dangling.
Qed.

(** No error of [GetNameNodeUrl] is the configuration error. *)
Lemma GetNameNodeUrl_never_configuration_error :
  (∀ l w u e w',
     StatusCheck.GetNameNodeUrl l w = Done (u, Some e) w' →
     kind_of e ≠ ConfigurationKind)
  ∧ (∀ l w u e w',
       Knox.GetNameNodeUrl l w = Done (u, Some e) w' →
       kind_of e ≠ ConfigurationKind).
Proof.
  split; intros l w u e w' Hrun.
  - by destruct (GetNameNodeUrl_StatusCheck_errors _ _ _ _ _ Hrun) as [msg ->].
  - by destruct (GetNameNodeUrl_Knox_errors _ _ _ _ _ Hrun) as [msg ->].
Qed.

End GetNameNodeUrlFacts.

(** * The claims *)

(** ** C1: an unset address *)

(** C1.  With the address left unset ([Addr] is the empty string, the zero
    value of the field), [GetNameNodeUrl] does not fail: the guard compares
    the address of the field with [nil], which never holds, so the text
    [http:///webhdfs/v1?user.name=hdfs] goes to [url.Parse] and comes back
    as a URL with an empty host and a nil error, in both revisions. *)
Theorem GetNameNodeUrl_unset_address_accepted :
  let base :=
    {| Scheme := "http"; Host := ""; Path := "/webhdfs/v1"; RawPath := "";
       RawQuery := "user.name=hdfs"; Fragment := "" |} in
  StatusCheck.Addr Inputs.no_address = ""
  ∧ StatusCheck.GetNameNodeUrl (H := Inputs.offline) 1%positive
      (Inputs.world Inputs.offline [] Inputs.no_address)
    = Done (Some base, None) (Inputs.world Inputs.offline [] Inputs.no_address)
  ∧ Knox.Addr Inputs.no_address_knox = ""
  ∧ Knox.GetNameNodeUrl (H := Inputs.offline) 1%positive
      (Inputs.world Inputs.offline [] Inputs.no_address_knox)
    = Done (Some base, None)
        (Inputs.world Inputs.offline [] Inputs.no_address_knox).
Proof.
  cbv zeta. split_and!; [reflexivity | | reflexivity |].
  - rewrite (GetNameNodeUrl_StatusCheck_run _ _ Inputs.no_address)
      by reflexivity.
    reflexivity.
  - rewrite (GetNameNodeUrl_Knox_run _ _ Inputs.no_address_knox)
      by reflexivity.
    reflexivity.
Qed.

(** ** C2: [buildRequestUrl] and its [Configuration] *)

(** Called through a pointer to a [Configuration] whose user is empty,
    [GetNameNodeUrl] writes the OS user into it. *)
Lemma GetNameNodeUrl_defaults_user_in_place :
  let w := Inputs.world Inputs.offline [] Inputs.namenode in
  heap (final_world (StatusCheck.GetNameNodeUrl (H := Inputs.offline) 1%positive w))
    !! 1%positive
  = Some (StatusCheck.set_User Inputs.namenode "hdfs").
Proof.
  cbv zeta.
  rewrite (GetNameNodeUrl_StatusCheck_run _ _ Inputs.namenode) by reflexivity.
  reflexivity.
Qed.

(** C2.  In both revisions, for every configuration, path, parameter map
    and world: whether the call returns or panics, no request has been
    sent ([netlog] is the same), every [Configuration] that was in memory
    is there with the same fields (the lazily set user goes to the copy
    that the by-value parameter is), and what the call yields does not
    depend on the world it runs in. *)
Theorem buildRequestUrl_no_network_no_mutation `{Platform} :
  (∀ conf p params (w : World StatusCheck.Configuration),
     let w' := final_world (StatusCheck.buildRequestUrl conf p params w) in
     netlog w' = netlog w
     ∧ (∀ l c, heap w !! l = Some c → heap w' !! l = Some c)
     ∧ ∀ w2, value (StatusCheck.buildRequestUrl conf p params w2)
             = value (StatusCheck.buildRequestUrl conf p params w))
  ∧ (∀ conf p params (w : World Knox.Configuration),
       let w' := final_world (Knox.buildRequestUrl conf p params w) in
       netlog w' = netlog w
       ∧ (∀ l c, heap w !! l = Some c → heap w' !! l = Some c)
       ∧ ∀ w2, value (Knox.buildRequestUrl conf p params w2)
               = value (Knox.buildRequestUrl conf p params w)).
Proof.
  split; intros conf p params w; cbv zeta.
  - destruct (buildRequestUrl_frame StatusCheck.GetNameNodeUrl
                GetNameNodeUrl_StatusCheck_frame conf p params w)
      as (Hn & _ & _ & Hh).
    split_and!; [exact Hn | exact Hh |].
    intros w2. apply buildRequestUrl_world_independent.
    apply GetNameNodeUrl_StatusCheck_local.
  - destruct (buildRequestUrl_frame Knox.GetNameNodeUrl
                GetNameNodeUrl_Knox_frame conf p params w)
      as (Hn & _ & _ & Hh).
    split_and!; [exact Hn | exact Hh |].
    intros w2. apply buildRequestUrl_world_independent.
    apply GetNameNodeUrl_Knox_local.
Qed.

Lemma buildRequestUrl_no_network_no_mutation_witness :
  let w := Inputs.world Inputs.offline [] Inputs.namenode in
  let w' :=
    final_world
      (StatusCheck.buildRequestUrl (H := Inputs.offline) Inputs.namenode
         (Some (mkPath "f")) (Some {["op" := "OPEN"]}) w) in
  StatusCheck.User Inputs.namenode = ""
  ∧ heap w !! 1%positive = Some Inputs.namenode
  ∧ heap w' !! 1%positive = Some Inputs.namenode
  ∧ netlog w' = [].
Proof.
  cbv zeta.
  destruct (buildRequestUrl_no_network_no_mutation (H := Inputs.offline))
    as [Hsc _].
  destruct (Hsc Inputs.namenode (Some (mkPath "f")) (Some {["op" := "OPEN"]})
              (Inputs.world Inputs.offline [] Inputs.namenode))
    as (Hn & Hh & _).
  split_and!; [reflexivity | reflexivity | apply Hh; reflexivity | exact Hn].
Defined.

(** ** C9, C10: the path segment *)

Section PathFacts.
Context `{Platform} {Conf : Type}.
Variable G : loc → M (World Conf) (option URL * option error).



Lemma buildRequestUrl_empty_name conf p params w u w1 :
  GetNameNodeUrl_of_copy G conf w = Done (Some u, None) w1 →
  (∃ p', p = Some p' ∧ Name p' = "") →
  buildRequestUrl G conf p params w = Panicked index_out_of_range w1.
Proof.
  intros Hbase (p' & -> & Hname). rewrite buildRequestUrl_run, Hbase.
  unfold finish. by rewrite Hname.
Qed.

Lemma buildRequestUrl_safe conf p params w u w1 :
  GetNameNodeUrl_of_copy G conf w = Done (Some u, None) w1 →
  (p = None ∨ ∃ p', p = Some p' ∧ Name p' ≠ "") →
  ∃ u', buildRequestUrl G conf p params w = Done (Some u', None) w1.
Proof.
  intros Hbase Hp. rewrite buildRequestUrl_run, Hbase.
  destruct Hp as [->|(p' & -> & Hname)]; [by eexists|].
  unfold finish. destruct (Name p'); [done|by eexists].
Qed.

Lemma buildRequestUrl_empty_name_no_url conf params w u' e w' :
  buildRequestUrl G conf (Some (mkPath "")) params w ≠ Done (Some u', e) w'.
Proof.
  rewrite buildRequestUrl_run.
  by destruct (GetNameNodeUrl_of_copy G conf w) as [[[u|] [err|]] w1|].
Qed.

End PathFacts.



(** C10.  In both revisions, once the base URL is derived, a path that is
    not nil and whose name is the empty string makes [buildRequestUrl]
    panic on [p.Name[0]] (index out of range), and a nil path or a path
    whose name has at least one character makes it return a URL.  With an
    empty name no call at all returns a URL. *)
Theorem buildRequestUrl_requires_nonempty_name `{Platform} :
  (∀ conf p params (w w1 : World StatusCheck.Configuration) u,
     GetNameNodeUrl_of_copy StatusCheck.GetNameNodeUrl conf w
     = Done (Some u, None) w1 →
     ((∃ p', p = Some p' ∧ Name p' = "") →
      StatusCheck.buildRequestUrl conf p params w
      = Panicked index_out_of_range w1)
     ∧ ((p = None ∨ ∃ p', p = Some p' ∧ Name p' ≠ "") →
        ∃ u', StatusCheck.buildRequestUrl conf p params w
              = Done (Some u', None) w1))
  ∧ (∀ conf p params (w w1 : World Knox.Configuration) u,
       GetNameNodeUrl_of_copy Knox.GetNameNodeUrl conf w
       = Done (Some u, None) w1 →
       ((∃ p', p = Some p' ∧ Name p' = "") →
        Knox.buildRequestUrl conf p params w = Panicked index_out_of_range w1)
       ∧ ((p = None ∨ ∃ p', p = Some p' ∧ Name p' ≠ "") →
          ∃ u', Knox.buildRequestUrl conf p params w
                = Done (Some u', None) w1))
  ∧ (∀ conf params (w w' : World StatusCheck.Configuration) u' e,
       StatusCheck.buildRequestUrl conf (Some (mkPath "")) params w
       ≠ Done (Some u', e) w')
  ∧ (∀ conf params (w w' : World Knox.Configuration) u' e,
       Knox.buildRequestUrl conf (Some (mkPath "")) params w
       ≠ Done (Some u', e) w').
Proof.
  split_and!.
  - intros conf p params w w1 u Hbase; split; intros Hp;
      solve [ by eapply buildRequestUrl_empty_name
            | by eapply buildRequestUrl_safe ].
  - intros conf p params w w1 u Hbase; split; intros Hp;
      solve [ by eapply buildRequestUrl_empty_name
            | by eapply buildRequestUrl_safe ].
  - intros. apply buildRequestUrl_empty_name_no_url.
  - intros. apply buildRequestUrl_empty_name_no_url.
Qed.

Lemma buildRequestUrl_requires_nonempty_name_witness :
  let w := Inputs.world Inputs.offline [] Inputs.gateway in
  value (Knox.buildRequestUrl (H := Inputs.offline) Inputs.gateway
           (Some (mkPath "")) (Some {["op" := OP_LISTSTATUS]}) w)
  = inr index_out_of_range.
Proof.
  cbv zeta.
  destruct (buildRequestUrl_requires_nonempty_name (H := Inputs.offline))
    as (_ & Hknox & _).
  set (w := Inputs.world Inputs.offline [] Inputs.gateway).
  assert (GetNameNodeUrl_of_copy (H := Inputs.offline)
            Knox.GetNameNodeUrl Inputs.gateway w
          = Done (Some Inputs.gateway_base, None)
              (final_world
                 (GetNameNodeUrl_of_copy (H := Inputs.offline)
                    Knox.GetNameNodeUrl Inputs.gateway w)))
    as Hbase by (apply done_of_value; vm_compute; reflexivity).
  destruct (Hknox Inputs.gateway (Some (mkPath ""))
              (Some {["op" := OP_LISTSTATUS]}) w _ _ Hbase) as [Hpanic _].
  rewrite Hpanic; [reflexivity|]. by eexists.
Defined.

(** ** C6, C7, C8: decoding *)

Section DecodeFacts.
Context `{Platform} {Conf : Type}.
Implicit Types (w : World Conf) (data : bytes).

Lemma nil_slice_len data : is_nil_slice data = true → len data = 0%nat.
Proof. by destruct data. Qed.

Lemma makeHdfsData_empty data w :
  len data = 0%nat → makeHdfsData data w = Done (zero_HdfsJsonData, None) w.
Proof. intros Hlen. unfold makeHdfsData. by rewrite Hlen. Qed.

Lemma makeHdfsData_nonempty data w :
  len data ≠ 0%nat →
  makeHdfsData data w =
  match json_Unmarshal (contents data) zero_HdfsJsonData with
  | (_, Some e) => Done (zero_HdfsJsonData, Some (JsonError e)) w
  | (x, None) =>
      if String.eqb (Exception (RemoteException_ x)) ""
      then Done (x, None) w
      else Done (zero_HdfsJsonData, Some (RemoteError (RemoteException_ x))) w
  end.
Proof.
  intros Hlen. unfold makeHdfsData.
  destruct (len data =? 0)%nat eqn:Hz; [by apply Nat.eqb_eq in Hz|].
  destruct (is_nil_slice data) eqn:Hn; [by apply nil_slice_len in Hn|].
  cbn [orb]. destruct (json_Unmarshal _ _) as [x [e|]]; [done|].
  by destruct (String.eqb _ _).
Qed.

Lemma makeHdfsData_returns data w :
  ∃ d e, makeHdfsData data w = Done (d, e) w.
Proof.
  destruct (decide (len data = 0%nat)) as [Hlen|Hlen].
  - rewrite makeHdfsData_empty by done. eauto.
  - rewrite makeHdfsData_nonempty by done.
    destruct (json_Unmarshal _ _) as [x [e|]]; [eauto|].
    destruct (String.eqb _ _); eauto.
Qed.

Lemma makeHdfsData_exclusive data w d e w' :
  makeHdfsData data w = Done (d, e) w' →
  match e with
  | None => Exception (RemoteException_ d) = ""
  | Some _ => d = zero_HdfsJsonData
  end.
Proof.
  destruct (decide (len data = 0%nat)) as [Hlen|Hlen].
  - rewrite makeHdfsData_empty by done. by intros [= <- <- _].
  - rewrite makeHdfsData_nonempty by done.
    destruct (json_Unmarshal _ _) as [x [err|]]; [by intros [= <- <- _]|].
    destruct (String.eqb_spec (Exception (RemoteException_ x)) "");
      by intros [= <- <- _].
Qed.

End DecodeFacts.

(** C6.  Whenever the body is parsed (it is not empty and [json.Unmarshal]
    reports no error) and the exception class of its remote-exception
    field is not empty, [makeHdfsData] returns the zero-value payload and
    that remote exception as the error.  The two outcomes exclude each
    other: a result with an error has the zero-value payload, and a result
    without an error has an empty exception class. *)
Theorem makeHdfsData_remote_exception `{Platform} {Conf : Type} :
  (∀ data x (w : World Conf),
     len data ≠ 0%nat →
     json_Unmarshal (contents data) zero_HdfsJsonData = (x, None) →
     Exception (RemoteException_ x) ≠ "" →
     makeHdfsData data w
     = Done (zero_HdfsJsonData, Some (RemoteError (RemoteException_ x))) w)
  ∧ (∀ data (w w' : World Conf) d e,
       makeHdfsData data w = Done (d, e) w' →
       match e with
       | None => Exception (RemoteException_ d) = ""
       | Some _ => d = zero_HdfsJsonData
       end).
Proof.
  split.
  - intros data x w Hlen Hx Hexc. rewrite makeHdfsData_nonempty, Hx by done.
    by destruct (String.eqb_spec (Exception (RemoteException_ x)) "").
  - intros data w w' d e. apply makeHdfsData_exclusive.
Qed.

Lemma makeHdfsData_remote_exception_witness :
  makeHdfsData (H := Inputs.offline)
    (Slice (list_byte_of_string Inputs.file_not_found))
    (Inputs.world Inputs.offline [] Inputs.namenode)
  = Done (zero_HdfsJsonData,
          Some (RemoteError
                  {| Exception := "FileNotFoundException";
                     JavaClassName := "c"; Message := "m" |}))
      (Inputs.world Inputs.offline [] Inputs.namenode).
Proof.
  destruct (makeHdfsData_remote_exception (H := Inputs.offline)
              (Conf := StatusCheck.Configuration)) as [Hremote _].
  apply (Hremote (Slice (list_byte_of_string Inputs.file_not_found))
           (mkHdfsJsonData []
              {| Exception := "FileNotFoundException";
                 JavaClassName := "c"; Message := "m" |})).
  - vm_compute. discriminate.
  - vm_compute. reflexivity.
  - vm_compute. discriminate.
Defined.

(** C7.  A nil byte slice and an empty byte slice both decode to the
    zero-value envelope with a nil error. *)
Theorem makeHdfsData_empty_body `{Platform} {Conf : Type} (w : World Conf) :
  makeHdfsData NilSlice w = Done (zero_HdfsJsonData, None) w
  ∧ makeHdfsData (Slice []) w = Done (zero_HdfsJsonData, None) w.
Proof. split; reflexivity. Qed.

(** C8.  For every non-empty byte sequence that [json.Unmarshal] rejects,
    [makeHdfsData] returns the zero-value payload and that decode error;
    and on every byte sequence whatsoever it returns, without a panic and
    without touching the world. *)
Theorem makeHdfsData_malformed `{Platform} {Conf : Type} :
  (∀ data x err (w : World Conf),
     len data ≠ 0%nat →
     json_Unmarshal (contents data) zero_HdfsJsonData = (x, Some err) →
     makeHdfsData data w = Done (zero_HdfsJsonData, Some (JsonError err)) w
     ∧ kind_of (JsonError err) = DecodeKind)
  ∧ (∀ data (w : World Conf), ∃ d e, makeHdfsData data w = Done (d, e) w).
Proof.
  split.
  - intros data x err w Hlen Hx. split; [|reflexivity].
    by rewrite makeHdfsData_nonempty, Hx.
  - intros data w. apply makeHdfsData_returns.
Qed.

Lemma makeHdfsData_malformed_witness :
  ∃ err,
    makeHdfsData (H := Inputs.offline)
      (Slice (list_byte_of_string Inputs.truncated))
      (Inputs.world Inputs.offline [] Inputs.namenode)
    = Done (zero_HdfsJsonData, Some (JsonError err))
        (Inputs.world Inputs.offline [] Inputs.namenode).
Proof.
  destruct (makeHdfsData_malformed (H := Inputs.offline)
              (Conf := StatusCheck.Configuration)) as [Hbad _].
  eexists.
  apply (Hbad (Slice (list_byte_of_string Inputs.truncated))
           zero_HdfsJsonData).
  - vm_compute. discriminate.
  - vm_compute. reflexivity.
Defined.

(** ** C3, C5: dispatch *)

Section DispatchFacts.
Context `{Platform} {Conf : Type}.
Implicit Types (w : World Conf) (rsp : Response).

Lemma Do_run req w :
  Do req w = Done (client_Do req (jar w)).1
               (sent req (client_Do req (jar w)).2 w).
Proof. unfold Do, sent. by destruct (client_Do req (jar w)). Qed.

(** The outcome of reading and decoding the body of an answer. *)
Lemma responseToHdfsData_cases rsp w :
  ∃ d e,
    responseToHdfsData rsp w = Done (d, e) w
    ∧ ((e = None ∧ decoded (inl rsp) d
        ∧ ∀ c e0, step_failure c (inl rsp) e0 →
                  c = true ∧ StatusCode rsp ≠ StatusOK)
       ∨ (d = zero_HdfsJsonData
          ∧ ∃ e', e = Some e' ∧ ∀ c, step_failure c (inl rsp) e')).
Proof.
  unfold responseToHdfsData.
  destruct (Body rsp) as [b [err|]] eqn:Hbody.
  { do 2 eexists. split; [reflexivity|]. right. split; [done|].
    eexists. split; [done|]. intros c. by eapply read_fails. }
  destruct (decide (len b = 0%nat)) as [Hlen|Hlen].
  { rewrite makeHdfsData_empty by done. do 2 eexists.
    split; [reflexivity|]. left. split_and!; [done| |].
    - exists rsp, b. eauto.
    - intros c e0 Hf. inversion Hf; subst; try done; congruence. }
  rewrite makeHdfsData_nonempty by done.
  destruct (json_Unmarshal (contents b) zero_HdfsJsonData)
    as [x [err|]] eqn:Hx.
  { do 2 eexists. split; [reflexivity|]. right. split; [done|].
    eexists. split; [done|]. intros c. by eapply parse_fails. }
  destruct (String.eqb_spec (Exception (RemoteException_ x)) "")
    as [Hexc|Hexc].
  - do 2 eexists. split; [reflexivity|]. left. split_and!; [done| |].
    + exists rsp, b. split_and!; [done..|]. right. by rewrite Hx.
    + intros c e0 Hf. inversion Hf; subst; try done; congruence.
  - do 2 eexists. split; [reflexivity|]. right. split; [done|].
    eexists. split; [done|]. intros c. by eapply remote_fails.
Qed.

End DispatchFacts.

Section RequestFacts.
Context `{Platform}.

Lemma requestHdfsData_StatusCheck_run req (w : World StatusCheck.Configuration) :
  StatusCheck.requestHdfsData req w =
  match (client_Do req (jar w)).1 with
  | inr err =>
      Done (zero_HdfsJsonData, Some (TransportError err))
        (sent req (client_Do req (jar w)).2 w)
  | inl rsp =>
      if StatusCode rsp =? StatusOK then
        responseToHdfsData rsp (sent req (client_Do req (jar w)).2 w)
      else
        Done (zero_HdfsJsonData,
              Some (BadStatus (StatusCode rsp) (Status rsp)))
          (sent req (client_Do req (jar w)).2 w)
  end.
Proof.
  unfold StatusCheck.requestHdfsData, bind. rewrite Do_run.
  destruct (client_Do req (jar w)).1 as [rsp|err]; [|reflexivity].
  destruct (StatusCode rsp =? StatusOK); [|reflexivity].
  cbn [negb].
  destruct (responseToHdfsData_cases rsp
              (sent req (client_Do req (jar w)).2 w))
    as (d & e & -> & _).
  reflexivity.
Qed.

Lemma requestHdfsData_Knox_run req (w : World Knox.Configuration) :
  Knox.requestHdfsData req w =
  match (client_Do req (jar w)).1 with
  | inr err =>
      Done (zero_HdfsJsonData, Some (TransportError err))
        (sent req (client_Do req (jar w)).2 w)
  | inl rsp => responseToHdfsData rsp (sent req (client_Do req (jar w)).2 w)
  end.
Proof.
  unfold Knox.requestHdfsData, bind. rewrite Do_run.
  destruct (client_Do req (jar w)).1 as [rsp|err]; [|reflexivity].
  destruct (responseToHdfsData_cases rsp
              (sent req (client_Do req (jar w)).2 w))
    as (d & e & -> & _).
  reflexivity.
Qed.

End RequestFacts.

(** C5.  In both revisions, whatever [client.Do] comes back with,
    [requestHdfsData] returns (it does not panic), and what it returns is
    either a nil error with the payload the body decodes to, no step having
    failed, or the zero-value payload with a non-nil error, the error of a
    step that failed.  A failed step never yields a nil error. *)
Theorem requestHdfsData_payload_or_error `{Platform} :
  (∀ req (w : World StatusCheck.Configuration) ans j,
     client_Do req (jar w) = (ans, j) →
     ∃ d e,
       StatusCheck.requestHdfsData req w = Done (d, e) (sent req j w)
       ∧ ((e = None ∧ decoded ans d ∧ ∀ e0, ¬ step_failure true ans e0)
          ∨ (d = zero_HdfsJsonData
             ∧ ∃ e', e = Some e' ∧ step_failure true ans e')))
  ∧ (∀ req (w : World Knox.Configuration) ans j,
       client_Do req (jar w) = (ans, j) →
       ∃ d e,
         Knox.requestHdfsData req w = Done (d, e) (sent req j w)
         ∧ ((e = None ∧ decoded ans d ∧ ∀ e0, ¬ step_failure false ans e0)
            ∨ (d = zero_HdfsJsonData
               ∧ ∃ e', e = Some e' ∧ step_failure false ans e'))).
Proof.
  split; intros req w ans j Hdo.
  - rewrite requestHdfsData_StatusCheck_run, Hdo. cbn [fst snd].
    destruct ans as [rsp|err].
    + destruct (Z.eqb_spec (StatusCode rsp) StatusOK) as [Hok|Hbad].
      * destruct (responseToHdfsData_cases rsp (sent req j w))
          as (d & e & Hrun & Hcases).
        rewrite Hrun. exists d, e. split; [reflexivity|].
        destruct Hcases as [(He & Hd & Hno)|(Hd & e' & He & Hf)];
          [left|right; eauto].
        split_and!; [done..|].
        intros e0 Hf. by destruct (Hno _ _ Hf).
      * do 2 eexists. split; [reflexivity|]. right. split; [done|].
        eexists. split; [done|]. by apply status_fails.
    + do 2 eexists. split; [reflexivity|]. right. split; [done|].
      eexists. split; [done|]. apply transport_fails.
  - rewrite requestHdfsData_Knox_run, Hdo. cbn [fst snd].
    destruct ans as [rsp|err].
    + destruct (responseToHdfsData_cases rsp (sent req j w))
        as (d & e & Hrun & Hcases).
      rewrite Hrun. exists d, e. split; [reflexivity|].
      destruct Hcases as [(He & Hd & Hno)|(Hd & e' & He & Hf)];
          [left|right; eauto].
      split_and!; [done..|].
      intros e0 Hf. by destruct (Hno _ _ Hf).
    + do 2 eexists. split; [reflexivity|]. right. split; [done|].
      eexists. split; [done|]. apply transport_fails.
Qed.

Lemma requestHdfsData_payload_or_error_witness :
  let P :=
    Sample.platform Inputs.hdfs
      (Inputs.answering 500 "500 Internal Server Error"
         Inputs.file_not_found []) in
  ∃ e j,
    Knox.requestHdfsData (H := P) (Inputs.get Inputs.some_url)
      (Inputs.world P [] Inputs.gateway)
    = Done (zero_HdfsJsonData, Some e)
        (sent (Inputs.get Inputs.some_url) j
           (Inputs.world P [] Inputs.gateway)).
Proof.
  cbv zeta.
  set (P := Sample.platform Inputs.hdfs
              (Inputs.answering 500 "500 Internal Server Error"
                 Inputs.file_not_found [])).
  destruct (requestHdfsData_payload_or_error (H := P)) as [_ Hknox].
  destruct (Hknox (Inputs.get Inputs.some_url)
              (Inputs.world P [] Inputs.gateway) _ _ eq_refl)
    as (d & e & Hrun & [(_ & _ & Hno)|(-> & e' & -> & _)]).
  - exfalso. eapply Hno, remote_fails.
    + reflexivity.
    + vm_compute. discriminate.
    + vm_compute. reflexivity.
    + vm_compute. discriminate.
  - by do 2 eexists.
Defined.

(** The sentence of the specification on the status check fails at 201:
    the code compares the status with 200, so an answer [201 Created],
    inside the 2xx range, is a protocol error. *)
Lemma requestHdfsData_201_is_protocol_error : ¬ protocol_error_iff_not_2xx.
Proof.
  intros Hclaim.
  set (P := Sample.platform Inputs.hdfs
              (Inputs.answering 201 "201 Created" "" [])).
  set (w := Inputs.world P [] Inputs.namenode).
  destruct (Hclaim P (Inputs.get Inputs.some_url) w
              (mkResponse 201 "201 Created" (Sample.body_of "")) []
              eq_refl) as [_ H2xx].
  apply (H2xx eq_refl zero_HdfsJsonData (BadStatus 201 "201 Created")
           (sent (H := P) (Inputs.get Inputs.some_url) [] w)); reflexivity.
Qed.

(** C3, amended.  In the status-checking revision, for every answer whose
    status code is not 200, and so for every answer outside the 2xx range,
    [requestHdfsData] fails with the protocol error that carries the status
    code and the status text; for every answer with status code 200 its
    error, if any, is not a protocol error. *)
Theorem requestHdfsData_protocol_error_iff_not_200 `{Platform} :
  ∀ req (w : World StatusCheck.Configuration) rsp j,
    client_Do req (jar w) = (inl rsp, j) →
    (StatusCode rsp ≠ 200 →
     StatusCheck.requestHdfsData req w
     = Done (zero_HdfsJsonData,
             Some (BadStatus (StatusCode rsp) (Status rsp))) (sent req j w))
    ∧ (is_2xx (StatusCode rsp) = false →
       StatusCheck.requestHdfsData req w
       = Done (zero_HdfsJsonData,
               Some (BadStatus (StatusCode rsp) (Status rsp))) (sent req j w))
    ∧ (StatusCode rsp = 200 →
       ∀ d e w', StatusCheck.requestHdfsData req w = Done (d, Some e) w' →
                 kind_of e ≠ ProtocolKind).
Proof.
  intros req w rsp j Hdo.
  assert (StatusCode rsp ≠ 200 →
          StatusCheck.requestHdfsData req w
          = Done (zero_HdfsJsonData,
                  Some (BadStatus (StatusCode rsp) (Status rsp)))
              (sent req j w)) as Hbad.
  { intros Hne. rewrite requestHdfsData_StatusCheck_run, Hdo. cbn [fst snd].
    by destruct (Z.eqb_spec (StatusCode rsp) StatusOK). }
  split_and!; [exact Hbad | |].
  - intros H2xx. apply Hbad. intros Hok. by rewrite Hok in H2xx.
  - intros Hok d e w'. rewrite requestHdfsData_StatusCheck_run, Hdo.
    cbn [fst snd]. rewrite Hok. cbn [Z.eqb StatusOK Pos.eqb].
    destruct (responseToHdfsData_cases rsp (sent req j w))
      as (d' & e' & -> & [(-> & _)|(_ & e'' & -> & Hf)]); [done|].
    intros [= _ <- _]. specialize (Hf false).
    inversion Hf; subst; done.
Qed.

Lemma requestHdfsData_protocol_error_iff_not_200_witness :
  let P :=
    Sample.platform Inputs.hdfs
      (Inputs.answering 500 "500 Internal Server Error"
         Inputs.file_not_found []) in
  StatusCheck.requestHdfsData (H := P) (Inputs.get Inputs.some_url)
    (Inputs.world P [] Inputs.namenode)
  = Done (zero_HdfsJsonData,
          Some (BadStatus 500 "500 Internal Server Error"))
      (sent (H := P) (Inputs.get Inputs.some_url) []
         (Inputs.world P [] Inputs.namenode)).
Proof.
  cbv zeta.
  set (P := Sample.platform Inputs.hdfs
              (Inputs.answering 500 "500 Internal Server Error"
                 Inputs.file_not_found [])).
  destruct (requestHdfsData_protocol_error_iff_not_200 (H := P)
              (Inputs.get Inputs.some_url)
              (Inputs.world P [] Inputs.namenode)
              (mkResponse 500 "500 Internal Server Error"
                 (Sample.body_of Inputs.file_not_found)) [] eq_refl)
    as (Hbad & _ & _).
  apply Hbad. discriminate.
Defined.

(** ** C4: the handshake *)

Section AuthFacts.
Context `{Platform}.
Implicit Types (w : World Knox.Configuration) (fs : Knox.FileSystem).

Lemma auth_run fs w baseURL resp w' :
  handshake_answer fs w baseURL resp w' →
  ∃ target,
    Knox.auth fs w =
    if StatusCode resp >? 299 then
      Done (Some (Errorf ("response of fs.client.Get(" +:+ target +:+ "): "
                          +:+ DumpResponse resp +:+ " "))) w'
    else if session_cookie baseURL w' then Done None w'
    else Done (Some (Errorf "session cookie not found in jar")) w'.
Proof.
  intros (w1 & req & j & Hurl & Hreq & Hdo & ->).
  eexists. unfold Knox.auth, bind. rewrite Hurl, Hreq, Do_run, Hdo.
  cbn [fst snd]. unfold session_cookie, ret. cbn [sent jar].
  destruct (StatusCode resp >? 299); [reflexivity|].
  by destruct (Knox.hasSessionCookie _).
Qed.

Lemma auth_status_failure fs w baseURL resp w' :
  handshake_answer fs w baseURL resp w' →
  299 < StatusCode resp →
  ∃ e, Knox.auth fs w = Done (Some e) w'.
Proof.
  intros Hans Hstatus. destruct (auth_run _ _ _ _ _ Hans) as [target ->].
  apply Z.gtb_lt in Hstatus. rewrite Hstatus. eauto.
Qed.

Lemma auth_cookie_failure fs w baseURL resp w' :
  handshake_answer fs w baseURL resp w' →
  StatusCode resp ≤ 299 →
  session_cookie baseURL w' = false →
  Knox.auth fs w
  = Done (Some (Errorf "session cookie not found in jar")) w'.
Proof.
  intros Hans Hstatus Hcookie.
  destruct (auth_run _ _ _ _ _ Hans) as [target ->]. rewrite Hcookie.
  destruct (Z.gtb_spec (StatusCode resp) 299); [lia|done].
Qed.

Lemma auth_success fs w baseURL resp w' :
  handshake_answer fs w baseURL resp w' →
  StatusCode resp ≤ 299 →
  session_cookie baseURL w' = true →
  Knox.auth fs w = Done None w'.
Proof.
  intros Hans Hstatus Hcookie.
  destruct (auth_run _ _ _ _ _ Hans) as [target ->]. rewrite Hcookie.
  destruct (Z.gtb_spec (StatusCode resp) 299); [lia|done].
Qed.

Lemma NewFileSystem_auth_run conf w j0 :
  cookiejar_New = inl j0 →
  Knox.EnableKnoxAuth conf = true →
  Knox.NewFileSystem conf w =
  match Knox.auth (Knox_fs conf) (with_jar j0 w) with
  | Done (Some e) w' =>
      Done (None, Some (Errorf ("fs.Auth: " +:+ Error_msg e))) w'
  | Done None w' =>
      Done (Some (Knox_fs conf), None)
        {| heap := heap w'; jar := jar w'; netlog := netlog w';
           refreshers := S (refreshers w') |}
  | Panicked msg w' => Panicked msg w'
  end.
Proof.
  intros Hjar Hauth. unfold Knox.NewFileSystem, bind.
  rewrite Hjar, Hauth. fold (Knox_fs conf). fold (with_jar j0 w).
  destruct (Knox.auth _ _) as [[e|] w'|]; reflexivity.
Qed.

Lemma NewFileSystem_no_auth conf w j0 :
  cookiejar_New = inl j0 →
  Knox.EnableKnoxAuth conf = false →
  Knox.NewFileSystem conf w = Done (Some (Knox_fs conf), None) (with_jar j0 w).
Proof.
  intros Hjar Hauth. unfold Knox.NewFileSystem, bind. by rewrite Hjar, Hauth.
Qed.

End AuthFacts.

(** The handshake of the sample gateway, whatever the service answers. *)
Lemma gateway_handshake_answer code status body cookies :
  let P := Sample.platform Inputs.hdfs
             (Inputs.answering code status body cookies) in
  let w := Inputs.world P [] Inputs.gateway in
  handshake_answer (H := P) (Knox_fs Inputs.gateway) w
    Inputs.gateway_handshake
    (mkResponse code status (Sample.body_of body))
    (sent (H := P) Inputs.gateway_request cookies
       (final_world
          (Knox.buildRequestUrl (H := P) Inputs.gateway (Some (mkPath "/"))
             (Some {["op" := OP_LISTSTATUS]}) w))).
Proof.
  cbv zeta. eexists _, (mkRequest "GET" Inputs.gateway_handshake None), _.
  split_and!.
  - apply done_of_value. vm_compute. reflexivity.
  - vm_compute. reflexivity.
  - reflexivity.
  - reflexivity.
Qed.

(** The sentence of the specification on the handshake fails at 101: the
    code rejects a status above 299 only, so with the session cookie in the
    jar an answer [101 Switching Protocols], which is not a success status,
    passes the handshake. *)
Lemma auth_accepts_status_101 : ¬ construction_fails_with_handshake.
Proof.
  intros Hclaim.
  set (P := Sample.platform Inputs.hdfs
              (Inputs.answering 101 "101 Switching Protocols" ""
                 [Inputs.session])).
  destruct (Hclaim P) as (_ & Hstatus & _).
  pose proof (gateway_handshake_answer 101 "101 Switching Protocols" ""
                [Inputs.session]) as Hans.
  cbv zeta in Hans. fold P in Hans.
  destruct (Hstatus _ _ _ _ _ Hans eq_refl) as [e He].
  rewrite (auth_success _ _ _ _ _ Hans) in He; [done| |reflexivity].
  cbn [StatusCode]. lia.
Qed.

(** C4, amended.  With auth mode enabled, construction fails with the error
    of the handshake whenever the handshake fails.  Once the service has
    answered, the handshake fails on every status above 299, and on every
    status up to 299, each success status among them, when the jar has no
    [JSESSIONID] cookie for the base URL; in either case construction
    fails. *)
Theorem construction_fails_with_handshake_above_299 `{Platform} :
  (∀ conf (w w' : World Knox.Configuration) j0 e,
     cookiejar_New = inl j0 →
     Knox.EnableKnoxAuth conf = true →
     Knox.auth (Knox_fs conf) (with_jar j0 w) = Done (Some e) w' →
     Knox.NewFileSystem conf w
     = Done (None, Some (Errorf ("fs.Auth: " +:+ Error_msg e))) w')
  ∧ (∀ fs (w w' : World Knox.Configuration) baseURL resp,
       handshake_answer fs w baseURL resp w' →
       299 < StatusCode resp →
       ∃ e, Knox.auth fs w = Done (Some e) w')
  ∧ (∀ fs (w w' : World Knox.Configuration) baseURL resp,
       handshake_answer fs w baseURL resp w' →
       StatusCode resp ≤ 299 →
       session_cookie baseURL w' = false →
       Knox.auth fs w
       = Done (Some (Errorf "session cookie not found in jar")) w')
  ∧ (∀ fs (w w' : World Knox.Configuration) baseURL resp,
       handshake_answer fs w baseURL resp w' →
       is_2xx (StatusCode resp) = true →
       session_cookie baseURL w' = false →
       Knox.auth fs w
       = Done (Some (Errorf "session cookie not found in jar")) w')
  ∧ (∀ conf (w w' : World Knox.Configuration) j0 baseURL resp,
       cookiejar_New = inl j0 →
       Knox.EnableKnoxAuth conf = true →
       handshake_answer (Knox_fs conf) (with_jar j0 w) baseURL resp w' →
       299 < StatusCode resp ∨ session_cookie baseURL w' = false →
       ∃ e, Knox.NewFileSystem conf w
            = Done (None, Some (Errorf ("fs.Auth: " +:+ Error_msg e))) w').
Proof.
  assert (∀ conf (w w' : World Knox.Configuration) j0 e,
            cookiejar_New = inl j0 →
            Knox.EnableKnoxAuth conf = true →
            Knox.auth (Knox_fs conf) (with_jar j0 w) = Done (Some e) w' →
            Knox.NewFileSystem conf w
            = Done (None, Some (Errorf ("fs.Auth: " +:+ Error_msg e))) w')
    as Hconstruct.
  { intros conf w w' j0 e Hjar Hauth Hfail.
    by rewrite (NewFileSystem_auth_run conf w j0 Hjar Hauth), Hfail. }
  split_and!.
  - exact Hconstruct.
  - intros fs w w' baseURL resp. apply auth_status_failure.
  - intros fs w w' baseURL resp. apply auth_cookie_failure.
  - intros fs w w' baseURL resp Hans H2xx.
    apply (auth_cookie_failure _ _ _ _ _ Hans).
    unfold is_2xx in H2xx. apply andb_true_iff in H2xx as [_ Hle].
    by apply Z.leb_le.
  - intros conf w w' j0 baseURL resp Hjar Hauth Hans Hfail.
    destruct (Z.le_gt_cases (StatusCode resp) 299) as [Hle|Hgt].
    + destruct Hfail as [Hgt|Hcookie]; [lia|].
      pose proof (auth_cookie_failure _ _ _ _ _ Hans Hle Hcookie) as He.
      eexists. by eapply Hconstruct.
    + destruct (auth_status_failure _ _ _ _ _ Hans Hgt) as [e He].
      exists e. by eapply Hconstruct.
Qed.

Lemma construction_fails_with_handshake_above_299_witness :
  let P := Sample.platform Inputs.hdfs (Inputs.answering 200 "200 OK" "" []) in
  value (Knox.NewFileSystem (H := P) Inputs.gateway
           (Inputs.world P [] Inputs.gateway))
  = inl (None, Some (Errorf "fs.Auth: session cookie not found in jar")).
Proof.
  cbv zeta.
  set (P := Sample.platform Inputs.hdfs (Inputs.answering 200 "200 OK" "" [])).
  destruct (construction_fails_with_handshake_above_299 (H := P))
    as (Hconstruct & _ & _ & Hcookie & _).
  pose proof (gateway_handshake_answer 200 "200 OK" "" []) as Hans.
  cbv zeta in Hans. fold P in Hans.
  rewrite (Hconstruct Inputs.gateway (Inputs.world P [] Inputs.gateway) _ []
             (Errorf "session cookie not found in jar") eq_refl eq_refl
             (Hcookie _ _ _ _ _ Hans eq_refl eq_refl)).
  reflexivity.
Defined.

(** * Further properties of the code *)

(** ** [GetNameNodeUrl] *)

Lemma append_assoc (a b c : string) : (a +:+ b) +:+ c = a +:+ b +:+ c.
Proof.
  induction a as [|x a IH]; [done|].
  change (String x ((a +:+ b) +:+ c) = String x (a +:+ b +:+ c)).
  by f_equal.
Qed.

Lemma append_empty_r (a : string) : a +:+ "" = a.
Proof.
  induction a as [|x a IH]; [done|].
  change (String x (a +:+ "") = String x a). by f_equal.
Qed.

Lemma length_zero (s : string) : (String.length s =? 0)%nat = true ↔ s = "".
Proof. destruct s; simpl; split; (done || congruence). Qed.

Lemma length_nonzero (s : string) :
  (String.length s =? 0)%nat = false ↔ s ≠ "".
Proof. destruct s; simpl; split; (done || congruence). Qed.

(** X1.  For a configuration whose user is set, [GetNameNodeUrl] changes
    nothing and returns what [url.Parse] makes of
    [scheme://Addr/webhdfs/v1BasePath?user.name=User], the scheme being
    [https] exactly when the HTTPS flag is set; this in both revisions. *)
Theorem GetNameNodeUrl_base_url_text `{Platform} :
  (∀ l (w : World StatusCheck.Configuration) c,
     heap w !! l = Some c → StatusCheck.User c ≠ "" →
     StatusCheck.GetNameNodeUrl l w
     = parsed ((if StatusCheck.UseHTTPS c then "https" else "http")
               +:+ "://" +:+ StatusCheck.Addr c +:+ "/webhdfs/v1"
               +:+ StatusCheck.BasePath c
               +:+ "?user.name=" +:+ StatusCheck.User c) w)
  ∧ (∀ l (w : World Knox.Configuration) c,
       heap w !! l = Some c → Knox.User c ≠ "" →
       Knox.GetNameNodeUrl l w
       = parsed ((if Knox.EnableHTTPS c then "https" else "http")
                 +:+ "://" +:+ Knox.Addr c +:+ "/webhdfs/v1"
                 +:+ Knox.BasePath c
                 +:+ "?user.name=" +:+ Knox.User c) w).
Proof.
  split; intros l w c Hc Huser.
  - rewrite (GetNameNodeUrl_StatusCheck_run l w c Hc).
    apply length_nonzero in Huser. rewrite Huser.
    unfold urlStr_StatusCheck, WebHdfsVer. by rewrite !append_assoc.
  - rewrite (GetNameNodeUrl_Knox_run l w c Hc).
    pose proof Huser as Hlen. apply length_nonzero in Hlen. rewrite Hlen.
    unfold urlStr_Knox, WebHdfsVer. cbv zeta.
    apply String.eqb_neq in Huser. rewrite Huser. cbn [negb].
    by rewrite !append_assoc.
Qed.

Lemma GetNameNodeUrl_base_url_text_witness :
  Knox.GetNameNodeUrl (H := Inputs.offline) 1%positive
    (Inputs.world Inputs.offline [] Inputs.gateway)
  = Done (Some Inputs.gateway_base, None)
      (Inputs.world Inputs.offline [] Inputs.gateway).
Proof.
  destruct (GetNameNodeUrl_base_url_text (H := Inputs.offline)) as [_ Hknox].
  rewrite (Hknox 1%positive _ Inputs.gateway); [|reflexivity|discriminate].
  reflexivity.
Defined.

(** X2.  For a configuration whose user is empty, on a platform that knows
    the OS user, [GetNameNodeUrl] writes the OS user name into the user
    field of the configuration it is called on, leaves the other fields,
    and parses the text made with that name.  In the Knox revision an OS
    user with an empty name gives a text without any query. *)
Theorem GetNameNodeUrl_defaults_user `{Platform} :
  (∀ l (w : World StatusCheck.Configuration) c u,
     heap w !! l = Some c → StatusCheck.User c = "" →
     user_Current = Some u →
     StatusCheck.GetNameNodeUrl l w
     = parsed ((if StatusCheck.UseHTTPS c then "https" else "http")
               +:+ "://" +:+ StatusCheck.Addr c +:+ "/webhdfs/v1"
               +:+ StatusCheck.BasePath c
               +:+ "?user.name=" +:+ Username u)
         (set_heap w (<[l := StatusCheck.set_User c (Username u)]> (heap w))))
  ∧ (∀ l (w : World Knox.Configuration) c u,
       heap w !! l = Some c → Knox.User c = "" →
       user_Current = Some u →
       Knox.GetNameNodeUrl l w
       = parsed ((if Knox.EnableHTTPS c then "https" else "http")
                 +:+ "://" +:+ Knox.Addr c +:+ "/webhdfs/v1"
                 +:+ Knox.BasePath c
                 +:+ (if String.eqb (Username u) "" then ""
                      else "?user.name=" +:+ Username u))
           (set_heap w (<[l := Knox.set_User c (Username u)]> (heap w)))).
Proof.
  split; intros l w c u Hc Huser Hos.
  - rewrite (GetNameNodeUrl_StatusCheck_run l w c Hc), Huser, Hos.
    cbn [String.length Nat.eqb]. cbv zeta.
    unfold urlStr_StatusCheck, WebHdfsVer.
    cbn [StatusCheck.set_User StatusCheck.UseHTTPS StatusCheck.Addr
           StatusCheck.BasePath StatusCheck.User].
    by rewrite !append_assoc.
  - rewrite (GetNameNodeUrl_Knox_run l w c Hc), Huser, Hos.
    cbn [String.length Nat.eqb]. cbv zeta.
    unfold urlStr_Knox, WebHdfsVer. cbv zeta.
    cbn [Knox.set_User Knox.EnableHTTPS Knox.Addr Knox.BasePath Knox.User].
    destruct (String.eqb (Username u) ""); cbn [negb];
      by rewrite ?append_assoc, ?append_empty_r.
Qed.

Lemma GetNameNodeUrl_defaults_user_witness :
  let P := MoreInputs.nameless in
  let w := Inputs.world P [] MoreInputs.no_user in
  value (Knox.GetNameNodeUrl (H := P) 1%positive w)
  = inl (Some {| Scheme := "http"; Host := "nn.example:50070";
                 Path := "/webhdfs/v1/data"; RawPath := "";
                 RawQuery := ""; Fragment := "" |}, None)
  ∧ value (StatusCheck.GetNameNodeUrl (H := Inputs.offline) 1%positive
             (Inputs.world Inputs.offline [] Inputs.namenode))
    = inl (Some Inputs.namenode_base, None).
Proof.
  cbv zeta.
  split.
  - destruct (GetNameNodeUrl_defaults_user (H := MoreInputs.nameless))
      as [_ Hknox].
    rewrite (Hknox 1%positive _ MoreInputs.no_user {| Username := "" |});
      reflexivity.
  - destruct (GetNameNodeUrl_defaults_user (H := Inputs.offline))
      as [Hsc _].
    rewrite (Hsc 1%positive _ Inputs.namenode {| Username := "hdfs" |});
      reflexivity.
Defined.

(** X3.  Called on a configuration in memory, [GetNameNodeUrl] panics
    exactly when the user field is empty and the OS user cannot be found:
    the error of [user.Current] is dropped and the nil user dereferenced.
    The panic is a nil dereference and leaves the world as it was. *)
Theorem GetNameNodeUrl_panics_iff_user_unknown `{Platform} :
  (∀ l (w : World StatusCheck.Configuration) c,
     heap w !! l = Some c →
     ((∃ msg w', StatusCheck.GetNameNodeUrl l w = Panicked msg w')
      ↔ StatusCheck.User c = "" ∧ user_Current = None)
     ∧ (StatusCheck.User c = "" → user_Current = None →
        StatusCheck.GetNameNodeUrl l w = Panicked nil_dereference w))
  ∧ (∀ l (w : World Knox.Configuration) c,
       heap w !! l = Some c →
       ((∃ msg w', Knox.GetNameNodeUrl l w = Panicked msg w')
        ↔ Knox.User c = "" ∧ user_Current = None)
       ∧ (Knox.User c = "" → user_Current = None →
          Knox.GetNameNodeUrl l w = Panicked nil_dereference w)).
Proof.
  split; intros l w c Hc.
  - rewrite (GetNameNodeUrl_StatusCheck_run l w c Hc).
    destruct (String.length (StatusCheck.User c) =? 0)%nat eqn:Hlen.
    + apply length_zero in Hlen.
      destruct user_Current as [u|]; cbv zeta; unfold parsed.
      * split; [|by intros _ [=]]. split; [|by intros [_ [=]]].
        by destruct (url_Parse _); intros (msg & w' & [=]).
      * split; [|done]. split; [done|]. intros _. eauto.
    + apply length_nonzero in Hlen. unfold parsed.
      split; [|done]. split; [|by intros [? _]].
      by destruct (url_Parse _); intros (msg & w' & [=]).
  - rewrite (GetNameNodeUrl_Knox_run l w c Hc).
    destruct (String.length (Knox.User c) =? 0)%nat eqn:Hlen.
    + apply length_zero in Hlen.
      destruct user_Current as [u|]; cbv zeta; unfold parsed.
      * split; [|by intros _ [=]]. split; [|by intros [_ [=]]].
        by destruct (url_Parse _); intros (msg & w' & [=]).
      * split; [|done]. split; [done|]. intros _. eauto.
    + apply length_nonzero in Hlen. unfold parsed.
      split; [|done]. split; [|by intros [? _]].
      by destruct (url_Parse _); intros (msg & w' & [=]).
Qed.

Lemma GetNameNodeUrl_panics_iff_user_unknown_witness :
  Knox.GetNameNodeUrl (H := MoreInputs.anonymous) 1%positive
    (Inputs.world MoreInputs.anonymous [] MoreInputs.no_user)
  = Panicked nil_dereference
      (Inputs.world MoreInputs.anonymous [] MoreInputs.no_user).
Proof.
  destruct (GetNameNodeUrl_panics_iff_user_unknown
              (H := MoreInputs.anonymous)) as [_ Hknox].
  destruct (Hknox 1%positive
              (Inputs.world MoreInputs.anonymous [] MoreInputs.no_user)
              MoreInputs.no_user eq_refl) as [_ Hpanic].
  apply Hpanic; reflexivity.
Defined.

Lemma parsed_done `{Platform} {W} s (w w1 : W) r :
  parsed s w = Done r w1 → w1 = w ∧ ∀ w2 : W, parsed s w2 = Done r w2.
Proof.
  unfold parsed. destruct (url_Parse s); intros [= <- <-]; by split.
Qed.

(** X4.  [GetNameNodeUrl] is idempotent: once a call has returned, a
    second call on the same configuration returns the same URL or error
    and leaves the world as the first call left it. *)
Theorem GetNameNodeUrl_idempotent `{Platform} :
  (∀ l (w w1 : World StatusCheck.Configuration) r,
     StatusCheck.GetNameNodeUrl l w = Done r w1 →
     StatusCheck.GetNameNodeUrl l w1 = Done r w1)
  ∧ (∀ l (w w1 : World Knox.Configuration) r,
       Knox.GetNameNodeUrl l w = Done r w1 →
       Knox.GetNameNodeUrl l w1 = Done r w1).
Proof.
  split; intros l w w1 r.
  - destruct (heap w !! l) as [c|] eqn:Hc;
      [|by rewrite GetNameNodeUrl_StatusCheck_dangling].
    rewrite (GetNameNodeUrl_StatusCheck_run l w c Hc).
    destruct (String.length (StatusCheck.User c) =? 0)%nat eqn:Hlen.
    + destruct user_Current as [u|] eqn:Hos; [|done]. cbv zeta.
      intros [-> Hagain]%parsed_done.
      set (c' := StatusCheck.set_User c (Username u)).
      rewrite (GetNameNodeUrl_StatusCheck_run l _ c')
        by (simpl; apply lookup_insert_eq).
      rewrite Hos. cbv zeta.
      destruct (String.length (StatusCheck.User c') =? 0)%nat; [|done].
      change (StatusCheck.set_User c' (Username u)) with c'.
      cbn [heap set_heap]. rewrite insert_insert_eq. apply Hagain.
    + intros [-> Hagain]%parsed_done.
      rewrite (GetNameNodeUrl_StatusCheck_run l w c Hc), Hlen. apply Hagain.
  - destruct (heap w !! l) as [c|] eqn:Hc;
      [|by rewrite GetNameNodeUrl_Knox_dangling].
    rewrite (GetNameNodeUrl_Knox_run l w c Hc).
    destruct (String.length (Knox.User c) =? 0)%nat eqn:Hlen.
    + destruct user_Current as [u|] eqn:Hos; [|done]. cbv zeta.
      intros [-> Hagain]%parsed_done.
      set (c' := Knox.set_User c (Username u)).
      rewrite (GetNameNodeUrl_Knox_run l _ c')
        by (simpl; apply lookup_insert_eq).
      rewrite Hos. cbv zeta.
      destruct (String.length (Knox.User c') =? 0)%nat; [|done].
      change (Knox.set_User c' (Username u)) with c'.
      cbn [heap set_heap]. rewrite insert_insert_eq. apply Hagain.
    + intros [-> Hagain]%parsed_done.
      rewrite (GetNameNodeUrl_Knox_run l w c Hc), Hlen. apply Hagain.
Qed.

Lemma GetNameNodeUrl_idempotent_witness :
  let w := Inputs.world Inputs.offline [] Inputs.namenode in
  let w1 :=
    final_world (StatusCheck.GetNameNodeUrl (H := Inputs.offline) 1%positive w) in
  StatusCheck.GetNameNodeUrl (H := Inputs.offline) 1%positive w1
  = Done (Some Inputs.namenode_base, None) w1.
Proof.
  cbv zeta.
  destruct (GetNameNodeUrl_idempotent (H := Inputs.offline)) as [Hsc _].
  apply (Hsc 1%positive (Inputs.world Inputs.offline [] Inputs.namenode)).
  apply done_of_value. vm_compute. reflexivity.
Defined.

(** X5.  What [GetNameNodeUrl] yields depends on the address, the base
    path, the user and the HTTPS flag of the configuration only: the
    password, the timeouts and the other flags never reach the URL. *)
Theorem GetNameNodeUrl_reads_four_fields `{Platform} :
  (∀ l1 l2 (w1 w2 : World StatusCheck.Configuration) c1 c2,
     heap w1 !! l1 = Some c1 → heap w2 !! l2 = Some c2 →
     StatusCheck.Addr c1 = StatusCheck.Addr c2 →
     StatusCheck.BasePath c1 = StatusCheck.BasePath c2 →
     StatusCheck.User c1 = StatusCheck.User c2 →
     StatusCheck.UseHTTPS c1 = StatusCheck.UseHTTPS c2 →
     value (StatusCheck.GetNameNodeUrl l1 w1)
     = value (StatusCheck.GetNameNodeUrl l2 w2))
  ∧ (∀ l1 l2 (w1 w2 : World Knox.Configuration) c1 c2,
       heap w1 !! l1 = Some c1 → heap w2 !! l2 = Some c2 →
       Knox.Addr c1 = Knox.Addr c2 →
       Knox.BasePath c1 = Knox.BasePath c2 →
       Knox.User c1 = Knox.User c2 →
       Knox.EnableHTTPS c1 = Knox.EnableHTTPS c2 →
       value (Knox.GetNameNodeUrl l1 w1) = value (Knox.GetNameNodeUrl l2 w2)).
Proof.
  split; intros l1 l2 w1 w2 c1 c2 H1 H2 Haddr Hbase Huser Hhttps.
  - rewrite (GetNameNodeUrl_StatusCheck_run l1 w1 c1 H1),
      (GetNameNodeUrl_StatusCheck_run l2 w2 c2 H2).
    unfold urlStr_StatusCheck. cbv zeta.
    cbn [StatusCheck.set_User StatusCheck.UseHTTPS StatusCheck.Addr
           StatusCheck.BasePath StatusCheck.User].
    rewrite Haddr, Hbase, Huser, Hhttps.
    destruct (String.length (StatusCheck.User c2) =? 0)%nat;
      [destruct user_Current|]; auto using @parsed_value.
  - rewrite (GetNameNodeUrl_Knox_run l1 w1 c1 H1),
      (GetNameNodeUrl_Knox_run l2 w2 c2 H2).
    unfold urlStr_Knox. cbv zeta.
    cbn [Knox.set_User Knox.EnableHTTPS Knox.Addr Knox.BasePath Knox.User].
    rewrite Haddr, Hbase, Huser, Hhttps.
    destruct (String.length (Knox.User c2) =? 0)%nat;
      [destruct user_Current|]; auto using @parsed_value.
Qed.

Lemma GetNameNodeUrl_reads_four_fields_witness :
  value (Knox.GetNameNodeUrl (H := Inputs.offline) 1%positive
           (Inputs.world Inputs.offline [] Inputs.gateway))
  = value (Knox.GetNameNodeUrl (H := Inputs.offline) 1%positive
             (Inputs.world Inputs.offline [Inputs.session]
                MoreInputs.gateway')).
Proof.
  destruct (GetNameNodeUrl_reads_four_fields (H := Inputs.offline))
    as [_ Hknox].
  apply (Hknox 1%positive 1%positive _ _ Inputs.gateway MoreInputs.gateway');
    reflexivity.
Defined.

(** ** [buildRequestUrl] *)

Section MorePathFacts.
Context `{Platform} {Conf : Type}.
Variable G : loc → M (World Conf) (option URL * option error).


Lemma buildRequestUrl_base_fields conf p params w u w1 u' e w' :
  GetNameNodeUrl_of_copy G conf w = Done (Some u, None) w1 →
  buildRequestUrl G conf p params w = Done (Some u', e) w' →
  e = None ∧ w' = w1
  ∧ Scheme u' = Scheme u ∧ Host u' = Host u ∧ RawPath u' = RawPath u
  ∧ Fragment u' = Fragment u
  ∧ RawQuery u' = Values_Encode (merge_params (Query u) params)
  ∧ ∃ suffix, Path u' = Path u +:+ suffix
              ∧ (p = None → suffix = "")
              ∧ (∀ p', p = Some p' → suffix = "/" +:+ trim_slash (Name p')).
Proof.
  intros Hbase. rewrite buildRequestUrl_run, Hbase. unfold finish.
  destruct p as [[[|c r]]|]; [done| |].
  - intros [= <- <- <-]. split_and!; try done.
    eexists. split; [reflexivity|]. split; [done|]. by intros p' [= <-].
  - intros [= <- <- <-]. split_and!; try done.
    exists "". split; [by rewrite append_empty_r|]. by split.
Qed.

End MorePathFacts.



(** X7.  In both revisions, a URL that [buildRequestUrl] returns has the
    scheme, the host, the raw path and the fragment of the base URL; its
    path is the path of the base URL followed by nothing for a nil path and
    by ['/'] and the name without its leading ['/'] otherwise; its query is
    the encoding of the query of the base URL with the parameters
    merged. *)
Theorem buildRequestUrl_keeps_base_url `{Platform} :
  (∀ conf p params (w w1 w' : World StatusCheck.Configuration) u u' e,
     GetNameNodeUrl_of_copy StatusCheck.GetNameNodeUrl conf w
     = Done (Some u, None) w1 →
     StatusCheck.buildRequestUrl conf p params w = Done (Some u', e) w' →
     e = None ∧ w' = w1
     ∧ Scheme u' = Scheme u ∧ Host u' = Host u ∧ RawPath u' = RawPath u
     ∧ Fragment u' = Fragment u
     ∧ RawQuery u' = Values_Encode (merge_params (Query u) params)
     ∧ ∃ suffix, Path u' = Path u +:+ suffix
                 ∧ (p = None → suffix = "")
                 ∧ (∀ p', p = Some p' → suffix = "/" +:+ trim_slash (Name p')))
  ∧ (∀ conf p params (w w1 w' : World Knox.Configuration) u u' e,
       GetNameNodeUrl_of_copy Knox.GetNameNodeUrl conf w
       = Done (Some u, None) w1 →
       Knox.buildRequestUrl conf p params w = Done (Some u', e) w' →
       e = None ∧ w' = w1
       ∧ Scheme u' = Scheme u ∧ Host u' = Host u ∧ RawPath u' = RawPath u
       ∧ Fragment u' = Fragment u
       ∧ RawQuery u' = Values_Encode (merge_params (Query u) params)
       ∧ ∃ suffix, Path u' = Path u +:+ suffix
                   ∧ (p = None → suffix = "")
                   ∧ (∀ p', p = Some p' →
                            suffix = "/" +:+ trim_slash (Name p'))).
Proof.
  split; intros conf p params w w1 w' u u' e Hbase Hrun;
    by eapply buildRequestUrl_base_fields.
Qed.

Lemma buildRequestUrl_keeps_base_url_witness :
  ∃ u',
    value (Knox.buildRequestUrl (H := Inputs.offline) Inputs.gateway None
             (Some {["op" := "GETFILESTATUS"]})
             (Inputs.world Inputs.offline [] Inputs.gateway))
    = inl (Some u', None)
    ∧ Path u' = "/webhdfs/v1" ∧ Host u' = "knox.example:8443"
    ∧ RawQuery u' = "op=GETFILESTATUS&user.name=alice".
Proof.
  destruct (buildRequestUrl_keeps_base_url (H := Inputs.offline))
    as [_ Hknox].
  set (w := Inputs.world Inputs.offline [] Inputs.gateway).
  set (params := Some ({["op" := "GETFILESTATUS"]} : gmap string string)).
  set (u' := {| Scheme := "https"; Host := "knox.example:8443";
                Path := "/webhdfs/v1"; RawPath := "";
                RawQuery := "op=GETFILESTATUS&user.name=alice";
                Fragment := "" |}).
  assert (GetNameNodeUrl_of_copy (H := Inputs.offline)
            Knox.GetNameNodeUrl Inputs.gateway w
          = Done (Some Inputs.gateway_base, None)
              (final_world
                 (GetNameNodeUrl_of_copy (H := Inputs.offline)
                    Knox.GetNameNodeUrl Inputs.gateway w)))
    as Hbase by (apply done_of_value; vm_compute; reflexivity).
  assert (Knox.buildRequestUrl (H := Inputs.offline) Inputs.gateway None
            params w
          = Done (Some u', None)
              (final_world
                 (Knox.buildRequestUrl (H := Inputs.offline) Inputs.gateway
                    None params w)))
    as Hrun by (apply done_of_value; vm_compute; reflexivity).
  destruct (Hknox _ _ _ _ _ _ _ _ _ Hbase Hrun)
    as (_ & _ & _ & Hhost & _ & _ & _ & suffix & Hpath & Hnil & _).
  exists u'. rewrite Hrun. split; [reflexivity|].
  split; [|split; [|reflexivity]].
  - rewrite Hpath, (Hnil eq_refl). reflexivity.
  - rewrite Hhost. reflexivity.
Defined.

Lemma merge_params_lookup (q : Values) (params : gmap string string) k :
  map_fold Values_Add q params !! k
  = match params !! k with
    | Some v => Some (default [] (q !! k) ++ [v])%list
    | None => q !! k
    end.
Proof.
  induction params as [|i x m Hi IH] using map_ind.
  - by rewrite map_fold_empty, lookup_empty.
  - rewrite map_fold_insert_L; [|by intros; apply Values_Add_comm|done].
    unfold Values_Add at 1.
    destruct (decide (i = k)) as [->|Hne].
    + rewrite !lookup_insert_eq, IH, Hi. done.
    + by rewrite !lookup_insert_ne, IH.
Qed.

(** X8.  The loop that merges the parameters into the query: in whatever
    order it visits the map, it builds the same query, in which a key of
    the parameters holds the values the base URL already had under it
    followed by the parameter, and any other key holds what it held. *)
Theorem params_loop_lookup (q : Values) (params : gmap string string)
    (order : list (string * string)) (k : string) :
  order ≡ₚ map_to_list params →
  let q' := foldl (λ q '(key, val), Values_Add key val q) q order in
  q' = merge_params q (Some params)
  ∧ q' !! k = match params !! k with
              | Some v => Some (default [] (q !! k) ++ [v])%list
              | None => q !! k
              end.
Proof.
  intros Hperm. cbv zeta. rewrite (range_order_irrelevant q params order Hperm).
  split; [reflexivity|]. apply merge_params_lookup.
Qed.

Lemma params_loop_lookup_witness :
  let q : Values := {["user.name" := ["hdfs"]]} in
  let params : gmap string string := {["op" := "OPEN"; "user.name" := "bob"]} in
  let q' :=
    foldl (λ q '(key, val), Values_Add key val q) q
      [("user.name", "bob"); ("op", "OPEN")] in
  q' !! "user.name" = Some ["hdfs"; "bob"] ∧ q' !! "op" = Some ["OPEN"]
  ∧ q' !! "offset" = None.
Proof.
  cbv zeta.
  assert ([("user.name", "bob"); ("op", "OPEN")]
          ≡ₚ map_to_list
               ({["op" := "OPEN"; "user.name" := "bob"]} : gmap string string))
    as Hperm.
  { replace (map_to_list
               ({["op" := "OPEN"; "user.name" := "bob"]} : gmap string string))
      with [("op", "OPEN"); ("user.name", "bob")] by (vm_compute; reflexivity).
    apply perm_swap. }
  split_and!.
  - rewrite (proj2 (params_loop_lookup {["user.name" := ["hdfs"]]} _ _
                      "user.name" Hperm)).
    reflexivity.
  - rewrite (proj2 (params_loop_lookup {["user.name" := ["hdfs"]]} _ _
                      "op" Hperm)).
    reflexivity.
  - rewrite (proj2 (params_loop_lookup {["user.name" := ["hdfs"]]} _ _
                      "offset" Hperm)).
    reflexivity.
Defined.

(** ** Dispatch *)

Lemma responseToHdfsData_reads_body `{Platform} {Conf : Type}
    (rsp rsp' : Response) (w : World Conf) :
  Body rsp' = Body rsp → responseToHdfsData rsp' w = responseToHdfsData rsp w.
Proof. intros Hbody. unfold responseToHdfsData. by rewrite Hbody. Qed.

Lemma responseToHdfsData_value `{Platform} {Conf1 Conf2 : Type}
    (rsp : Response) (w1 : World Conf1) (w2 : World Conf2) :
  value (responseToHdfsData rsp w1) = value (responseToHdfsData rsp w2).
Proof.
  unfold responseToHdfsData, makeHdfsData, ret.
  destruct (Body rsp) as [b [err|]]; [done|].
  destruct ((len b =? 0)%nat || is_nil_slice b); [done|].
  destruct (json_Unmarshal _ _) as [x [err|]]; [done|].
  by destruct (negb _).
Qed.

(** X9.  In the Knox revision the status of the answer plays no part in a
    dispatch: the result is what reading and decoding the body gives, the
    same for any answer with that body. *)
Theorem requestHdfsData_Knox_ignores_status `{Platform} :
  ∀ req (w : World Knox.Configuration) rsp rsp' j,
    client_Do req (jar w) = (inl rsp, j) →
    Body rsp' = Body rsp →
    Knox.requestHdfsData req w = responseToHdfsData rsp' (sent req j w).
Proof.
  intros req w rsp rsp' j Hdo Hbody.
  rewrite requestHdfsData_Knox_run, Hdo. cbn [fst snd].
  symmetry. by apply responseToHdfsData_reads_body.
Qed.

Lemma requestHdfsData_Knox_ignores_status_witness :
  let P :=
    Sample.platform Inputs.hdfs
      (Inputs.answering 500 "500 Internal Server Error"
         Inputs.file_not_found []) in
  value (Knox.requestHdfsData (H := P) (Inputs.get Inputs.some_url)
           (Inputs.world P [] Inputs.gateway))
  = inl (zero_HdfsJsonData,
         Some (RemoteError
                 {| Exception := "FileNotFoundException";
                    JavaClassName := "c"; Message := "m" |})).
Proof.
  cbv zeta.
  set (P := Sample.platform Inputs.hdfs
              (Inputs.answering 500 "500 Internal Server Error"
                 Inputs.file_not_found [])).
  rewrite (requestHdfsData_Knox_ignores_status (H := P)
             (Inputs.get Inputs.some_url)
             (Inputs.world P [] Inputs.gateway)
             (mkResponse 500 "500 Internal Server Error"
                (Sample.body_of Inputs.file_not_found))
             (mkResponse 200 "200 OK"
                (Sample.body_of Inputs.file_not_found))
             [] eq_refl eq_refl).
  vm_compute. reflexivity.
Defined.

(** X10.  The two revisions of [requestHdfsData] yield the same payload and
    error whenever [client.Do] fails or the answer has status 200; they
    differ on the other statuses only. *)
Theorem requestHdfsData_revisions_agree `{Platform} :
  ∀ req (wS : World StatusCheck.Configuration) (wK : World Knox.Configuration)
    ans j,
    jar wK = jar wS →
    client_Do req (jar wS) = (ans, j) →
    (∀ rsp, ans = inl rsp → StatusCode rsp = 200) →
    value (StatusCheck.requestHdfsData req wS)
    = value (Knox.requestHdfsData req wK)
    ∧ jar (final_world (StatusCheck.requestHdfsData req wS))
      = jar (final_world (Knox.requestHdfsData req wK)).
Proof.
  intros req wS wK ans j Hjar Hdo Hok.
  rewrite requestHdfsData_StatusCheck_run, requestHdfsData_Knox_run.
  rewrite Hjar, Hdo. cbn [fst snd].
  destruct ans as [rsp|err]; [|done].
  rewrite (Hok rsp eq_refl). cbn [Z.eqb StatusOK Pos.eqb].
  split; [apply responseToHdfsData_value|].
  destruct (responseToHdfsData_cases rsp (sent req j wS))
    as (d1 & e1 & -> & _).
  by destruct (responseToHdfsData_cases rsp (sent req j wK))
    as (d2 & e2 & -> & _).
Qed.

Lemma requestHdfsData_revisions_agree_witness :
  let P :=
    Sample.platform Inputs.hdfs
      (Inputs.answering 200 "200 OK" Inputs.file_not_found []) in
  value (StatusCheck.requestHdfsData (H := P) (Inputs.get Inputs.some_url)
           (Inputs.world P [] Inputs.namenode))
  = value (Knox.requestHdfsData (H := P) (Inputs.get Inputs.some_url)
             (Inputs.world P [] Inputs.gateway)).
Proof.
  cbv zeta.
  set (P := Sample.platform Inputs.hdfs
              (Inputs.answering 200 "200 OK" Inputs.file_not_found [])).
  refine (proj1 (requestHdfsData_revisions_agree (H := P)
                   (Inputs.get Inputs.some_url)
                   (Inputs.world P [] Inputs.namenode)
                   (Inputs.world P [] Inputs.gateway)
                   (inl (mkResponse 200 "200 OK"
                           (Sample.body_of Inputs.file_not_found)))
                   [] eq_refl eq_refl _)).
  by intros rsp [= <-].
Defined.

(** ** The handshake and the construction of a [FileSystem] *)

Section MoreAuthFacts.
Context `{Platform}.
Implicit Types (w : World Knox.Configuration) (fs : Knox.FileSystem).

Lemma GetNameNodeUrl_Knox_copy_run conf w :
  let l := fresh (dom (heap w)) in
  let w0 := set_heap w (<[l := conf]> (heap w)) in
  GetNameNodeUrl_of_copy Knox.GetNameNodeUrl conf w =
  if (String.length (Knox.User conf) =? 0)%nat then
    match user_Current with
    | None => Panicked nil_dereference w0
    | Some u =>
        parsed (urlStr_Knox (Knox.set_User conf (Username u)))
          (set_heap w0 (<[l := Knox.set_User conf (Username u)]> (heap w0)))
    end
  else parsed (urlStr_Knox conf) w0.
Proof.
  cbv zeta. rewrite GetNameNodeUrl_of_copy_run.
  by rewrite (GetNameNodeUrl_Knox_run _ _ conf)
    by (simpl; apply lookup_insert_eq).
Qed.

(** The world after [auth]: the one [buildRequestUrl] leaves, with at most
    one request sent from it. *)
Lemma auth_world fs w :
  let w1 :=
    final_world
      (Knox.buildRequestUrl (Knox.Config fs) (Some (mkPath "/"))
         (Some {["op" := OP_LISTSTATUS]}) w) in
  final_world (Knox.auth fs w) = w1
  ∨ ∃ req j,
      final_world (Knox.auth fs w)
      = sent (SetBasicAuth req (Knox.User (Knox.Config fs))
                (Knox.Password (Knox.Config fs))) j w1.
Proof.
  cbv zeta. unfold Knox.auth, bind.
  destruct (Knox.buildRequestUrl _ _ _ w) as [[[baseURL|] [e|]] w1|];
    try (by left).
  destruct (http_NewRequest _ _) as [req|err]; [|by left].
  rewrite Do_run. right. exists req, (client_Do
    (SetBasicAuth req (Knox.User (Knox.Config fs))
       (Knox.Password (Knox.Config fs))) (jar w1)).2.
  destruct (client_Do _ _).1 as [resp|err]; [|done].
  destruct (StatusCode resp >? 299); [done|].
  by destruct (Knox.hasSessionCookie _).
Qed.

Lemma auth_frame fs w :
  let w' := final_world (Knox.auth fs w) in
  (∀ l c, heap w !! l = Some c → heap w' !! l = Some c)
  ∧ refreshers w' = refreshers w
  ∧ ((netlog w' = netlog w ∧ jar w' = jar w)
     ∨ ∃ r, netlog w' = (netlog w ++ [r])%list
            ∧ BasicAuth r = Some (Knox.User (Knox.Config fs),
                                  Knox.Password (Knox.Config fs))).
Proof.
  cbv zeta.
  destruct (buildRequestUrl_frame Knox.GetNameNodeUrl
              GetNameNodeUrl_Knox_frame (Knox.Config fs) (Some (mkPath "/"))
              (Some {["op" := OP_LISTSTATUS]}) w) as (Hn & Hj & Hr & Hh).
  destruct (auth_world fs w) as [->|(req & j & ->)].
  - split_and!; [done..|]. by left.
  - unfold Knox.buildRequestUrl. split_and!; [done..|]. right. eexists.
    cbn [sent netlog]. split; [by rewrite Hn|done].
Qed.

Lemma auth_panics fs w :
  (∃ msg w', Knox.auth fs w = Panicked msg w')
  ↔ Knox.User (Knox.Config fs) = "" ∧ user_Current = None.
Proof.
  unfold Knox.auth, bind, Knox.buildRequestUrl.
  rewrite buildRequestUrl_run, GetNameNodeUrl_Knox_copy_run. cbv zeta.
  destruct (String.length (Knox.User (Knox.Config fs)) =? 0)%nat eqn:Hlen.
  - apply length_zero in Hlen. destruct user_Current as [u|].
    + split; [|by intros [_ [=]]]. unfold parsed.
      destruct (url_Parse _) as [u0|err]; cbn [finish Name trim_slash].
      * destruct (http_NewRequest _ _); [|by intros (? & ? & [=])].
        rewrite Do_run. destruct (client_Do _ _).1 as [resp|];
          [|by intros (? & ? & [=])].
        destruct (StatusCode resp >? 299); [by intros (? & ? & [=])|].
        by destruct (Knox.hasSessionCookie _); intros (? & ? & [=]).
      * by intros (? & ? & [=]).
    + split; [done|]. intros _. eauto.
  - apply length_nonzero in Hlen. split; [|by intros [? _]]. unfold parsed.
    destruct (url_Parse _) as [u0|err]; cbn [finish Name trim_slash].
    + destruct (http_NewRequest _ _); [|by intros (? & ? & [=])].
      rewrite Do_run. destruct (client_Do _ _).1 as [resp|];
        [|by intros (? & ? & [=])].
      destruct (StatusCode resp >? 299); [by intros (? & ? & [=])|].
      by destruct (Knox.hasSessionCookie _); intros (? & ? & [=]).
    + by intros (? & ? & [=]).
Qed.

End MoreAuthFacts.

(** X11.  In the Knox revision the handshake panics exactly when the
    configured user is empty and the OS user cannot be found (the path it
    passes is ["/"], so the index into the name is safe); construction
    panics exactly when, in addition, the jar was made and auth mode is
    enabled. *)
Theorem auth_panics_iff_user_unknown `{Platform} :
  (∀ fs (w : World Knox.Configuration),
     (∃ msg w', Knox.auth fs w = Panicked msg w')
     ↔ Knox.User (Knox.Config fs) = "" ∧ user_Current = None)
  ∧ (∀ conf (w : World Knox.Configuration),
       (∃ msg w', Knox.NewFileSystem conf w = Panicked msg w')
       ↔ (∃ j, cookiejar_New = inl j) ∧ Knox.EnableKnoxAuth conf = true
         ∧ Knox.User conf = "" ∧ user_Current = None).
Proof.
  split; [apply auth_panics|]. intros conf w.
  destruct cookiejar_New as [j0|err] eqn:Hjar.
  - destruct (Knox.EnableKnoxAuth conf) eqn:Hauth.
    + rewrite (NewFileSystem_auth_run conf w j0 Hjar Hauth).
      pose proof (auth_panics (Knox_fs conf) (with_jar j0 w)) as Hpanics.
      cbn [Knox_fs Knox.Config] in Hpanics.
      destruct (Knox.auth (Knox_fs conf) (with_jar j0 w))
        as [[e|] w1|] eqn:Hrun.
      * split; [by intros (? & ? & [=])|]. intros (_ & _ & Hu).
        apply Hpanics in Hu as (? & ? & [=]).
      * split; [by intros (? & ? & [=])|]. intros (_ & _ & Hu).
        apply Hpanics in Hu as (? & ? & [=]).
      * split; [|eauto]. intros _. split_and!; [eauto|done|..];
          apply Hpanics; eauto.
    + rewrite (NewFileSystem_no_auth conf w j0 Hjar Hauth).
      split; [by intros (? & ? & [=])|by intros (_ & [=] & _)].
  - unfold Knox.NewFileSystem. rewrite Hjar.
    split; [by intros (? & ? & [=])|by intros ([? [=]] & _)].
Qed.

Lemma auth_panics_iff_user_unknown_witness :
  ∃ msg w',
    Knox.NewFileSystem (H := MoreInputs.anonymous) MoreInputs.no_user
      (Inputs.world MoreInputs.anonymous [] MoreInputs.no_user)
    = Panicked msg w'.
Proof.
  destruct (auth_panics_iff_user_unknown (H := MoreInputs.anonymous))
    as [_ Hnew].
  apply Hnew. split_and!; [by eexists|reflexivity..].
Defined.

(** X12.  Whatever happens in it, the handshake changes no [Configuration]
    in memory and starts no task, and it sends at most one request; a
    request it sends carries as Basic credentials the user and the
    password of [fs.Config] as they are (the user that [GetNameNodeUrl]
    looks up for an empty field goes into the URL only). *)
Theorem auth_sends_one_request_at_most `{Platform} :
  ∀ fs (w : World Knox.Configuration),
    let w' := final_world (Knox.auth fs w) in
    (∀ l c, heap w !! l = Some c → heap w' !! l = Some c)
    ∧ refreshers w' = refreshers w
    ∧ ((netlog w' = netlog w ∧ jar w' = jar w)
       ∨ ∃ r, netlog w' = (netlog w ++ [r])%list
              ∧ BasicAuth r = Some (Knox.User (Knox.Config fs),
                                    Knox.Password (Knox.Config fs))).
Proof. intros fs w. apply auth_frame. Qed.

Lemma auth_sends_one_request_at_most_witness :
  let P := Sample.platform Inputs.hdfs (Inputs.answering 200 "200 OK" "" []) in
  let w := Inputs.world P [] MoreInputs.no_user in
  let w' := final_world (Knox.auth (H := P) (Knox_fs MoreInputs.no_user) w) in
  heap w' !! 1%positive = Some MoreInputs.no_user
  ∧ (BasicAuth <$> netlog w') = [Some ("", "")]
  ∧ (RawQuery ∘ reqURL <$> netlog w') = ["op=LISTSTATUS&user.name=hdfs"].
Proof.
  cbv zeta.
  set (P := Sample.platform Inputs.hdfs (Inputs.answering 200 "200 OK" "" [])).
  destruct (auth_sends_one_request_at_most (H := P)
              (Knox_fs MoreInputs.no_user)
              (Inputs.world P [] MoreInputs.no_user)) as (Hh & _ & _).
  split; [by apply Hh|]. split; vm_compute; reflexivity.
Defined.

(** X13.  What the construction of the Knox revision returns: either the
    [FileSystem] of the configuration with a nil error, and then exactly
    one refresh task has been started if auth mode is enabled and none, nor
    any request sent, if it is not; or no [FileSystem] and an error, and
    then no task has been started.  No [Configuration] in memory is
    changed. *)
Theorem NewFileSystem_Knox_outcome `{Platform} :
  ∀ conf (w w' : World Knox.Configuration) fs e,
    Knox.NewFileSystem conf w = Done (fs, e) w' →
    (∀ l c, heap w !! l = Some c → heap w' !! l = Some c)
    ∧ ((fs = Some (Knox_fs conf) ∧ e = None
        ∧ refreshers w'
          = (if Knox.EnableKnoxAuth conf then S (refreshers w)
             else refreshers w)
        ∧ (Knox.EnableKnoxAuth conf = false → netlog w' = netlog w))
       ∨ (fs = None ∧ (∃ msg, e = Some (Errorf msg))
          ∧ refreshers w' = refreshers w)).
Proof.
  intros conf w w' fs e.
  destruct cookiejar_New as [j0|err] eqn:Hjar.
  - destruct (Knox.EnableKnoxAuth conf) eqn:Hauth.
    + rewrite (NewFileSystem_auth_run conf w j0 Hjar Hauth).
      destruct (auth_frame (Knox_fs conf) (with_jar j0 w))
        as (Hh & Hr & _).
      destruct (Knox.auth (Knox_fs conf) (with_jar j0 w))
        as [[e0|] w1|]; [..|done]; intros [= <- <- <-];
        cbn [final_world] in Hh, Hr; (split; [exact Hh|]).
      * right. split_and!; [done|by eexists|done].
      * left. cbn [refreshers]. by rewrite Hr.
    + rewrite (NewFileSystem_no_auth conf w j0 Hjar Hauth).
      intros [= <- <- <-]. split; [done|]. by left.
  - unfold Knox.NewFileSystem. rewrite Hjar. intros [= <- <- <-].
    split; [done|]. right. split_and!; [done|by eexists|done].
Qed.

Lemma NewFileSystem_Knox_outcome_witness :
  let P :=
    Sample.platform Inputs.hdfs
      (Inputs.answering 200 "200 OK" "" [Inputs.session]) in
  let r :=
    Knox.NewFileSystem (H := P) Inputs.gateway
      (Inputs.world P [] Inputs.gateway) in
  value r = inl (Some (Knox_fs Inputs.gateway), None)
  ∧ refreshers (final_world r) = 1%nat.
Proof.
  cbv zeta.
  set (P := Sample.platform Inputs.hdfs
              (Inputs.answering 200 "200 OK" "" [Inputs.session])).
  set (w := Inputs.world P [] Inputs.gateway).
  assert (Knox.NewFileSystem (H := P) Inputs.gateway w
          = Done (Some (Knox_fs Inputs.gateway), None)
              (final_world (Knox.NewFileSystem (H := P) Inputs.gateway w)))
    as Hrun by (apply done_of_value; vm_compute; reflexivity).
  destruct (NewFileSystem_Knox_outcome (H := P) _ _ _ _ _ Hrun)
    as [_ [(_ & _ & Hr & _)|([=] & _)]].
  split; [by rewrite Hrun|exact Hr].
Defined.



(** X15.  With auth mode enabled and a user set, an address that
    [url.Parse] rejects makes construction fail with the error of
    [url.Parse] under the prefixes [fs.Auth: ] and [buildRequestUrl: ];
    nothing has been sent and no task started. *)
Theorem NewFileSystem_Knox_bad_address `{Platform} :
  ∀ conf (w : World Knox.Configuration) j0 msg,
    cookiejar_New = inl j0 →
    Knox.EnableKnoxAuth conf = true →
    Knox.User conf ≠ "" →
    url_Parse (urlStr_Knox conf) = inr msg →
    ∃ w', Knox.NewFileSystem conf w
          = Done (None, Some (Errorf ("fs.Auth: buildRequestUrl: " +:+ msg))) w'
          ∧ netlog w' = netlog w ∧ refreshers w' = refreshers w.
Proof.
  intros conf w j0 msg Hjar Hauth Huser Hparse.
  rewrite (NewFileSystem_auth_run conf w j0 Hjar Hauth).
  unfold Knox.auth, bind, Knox.buildRequestUrl.
  rewrite buildRequestUrl_run, GetNameNodeUrl_Knox_copy_run. cbv zeta.
  cbn [Knox_fs Knox.Config].
  apply length_nonzero in Huser. rewrite Huser. unfold parsed.
  rewrite Hparse. cbn [finish]. unfold ret. cbn [Error_msg].
  eexists. split; [reflexivity|]. by split.
Qed.

Lemma NewFileSystem_Knox_bad_address_witness :
  value (Knox.NewFileSystem (H := Inputs.offline) MoreInputs.bad_port
           (Inputs.world Inputs.offline [] MoreInputs.bad_port))
  = inl (None,
         Some (Errorf "fs.Auth: buildRequestUrl: invalid port after host")).
Proof.
  destruct (NewFileSystem_Knox_bad_address (H := Inputs.offline)
              MoreInputs.bad_port
              (Inputs.world Inputs.offline [] MoreInputs.bad_port)
              [] "invalid port after host" eq_refl eq_refl)
    as (w' & Hrun & _); [discriminate|reflexivity|].
  by rewrite Hrun.
Defined.

(** X16.  The two revisions of [GetNameNodeUrl], and so of
    [buildRequestUrl], yield the same for configurations with the same
    address, base path, user and HTTPS flag, unless the user ends up empty
    (an empty field and an OS user with an empty name): only then do the
    texts they parse differ. *)
Theorem buildRequestUrl_revisions_agree `{Platform} :
  ∀ (cS : StatusCheck.Configuration) (cK : Knox.Configuration) p params
    (wS : World StatusCheck.Configuration) (wK : World Knox.Configuration),
    StatusCheck.Addr cS = Knox.Addr cK →
    StatusCheck.BasePath cS = Knox.BasePath cK →
    StatusCheck.User cS = Knox.User cK →
    StatusCheck.UseHTTPS cS = Knox.EnableHTTPS cK →
    (Knox.User cK = "" → ∀ u, user_Current = Some u → Username u ≠ "") →
    value (StatusCheck.buildRequestUrl cS p params wS)
    = value (Knox.buildRequestUrl cK p params wK).
Proof.
  intros cS cK p params wS wK Haddr Hbase Huser Hhttps Hname.
  unfold StatusCheck.buildRequestUrl, Knox.buildRequestUrl.
  rewrite !buildRequestUrl_value, !GetNameNodeUrl_of_copy_run.
  rewrite (GetNameNodeUrl_StatusCheck_run _ _ cS)
    by (simpl; apply lookup_insert_eq).
  rewrite (GetNameNodeUrl_Knox_run _ _ cK) by (simpl; apply lookup_insert_eq).
  unfold urlStr_StatusCheck, urlStr_Knox. cbv zeta.
  cbn [StatusCheck.set_User StatusCheck.UseHTTPS StatusCheck.Addr
         StatusCheck.BasePath StatusCheck.User
         Knox.set_User Knox.EnableHTTPS Knox.Addr Knox.BasePath Knox.User].
  rewrite Haddr, Hbase, Huser, Hhttps.
  destruct (String.length (Knox.User cK) =? 0)%nat eqn:Hlen.
  - apply length_zero in Hlen. destruct user_Current as [u|]; [|done].
    specialize (Hname Hlen u eq_refl). apply String.eqb_neq in Hname.
    rewrite Hname. cbn [negb]. by erewrite parsed_value.
  - apply length_nonzero, String.eqb_neq in Hlen.
    rewrite Hlen. cbn [negb]. by erewrite parsed_value.
Qed.

Lemma buildRequestUrl_revisions_agree_witness :
  value (StatusCheck.buildRequestUrl (H := Inputs.offline) Inputs.namenode
           (Some (mkPath "f")) None
           (Inputs.world Inputs.offline [] Inputs.namenode))
  = value (Knox.buildRequestUrl (H := Inputs.offline) MoreInputs.no_user
             (Some (mkPath "f")) None
             (Inputs.world Inputs.offline [] MoreInputs.no_user)).
Proof.
  apply (buildRequestUrl_revisions_agree (H := Inputs.offline));
    try reflexivity.
  intros _ u [= <-]. discriminate.
Defined.
